(** * busca-cnpj-em-lote: the batch CNPJ lookup script, [main.py]

    A shallow embedding of the four functions of [main.py] and of the
    module-level driver, with the properties of its specification.

    - Python [str] values are sequences of Unicode code points.
    - Values decoded from JSON are the inductive [pyval].
    - Exceptions are explicit: a computation returns [Ok v] or [Raise e].
    - The workbook that [pandas.ExcelWriter] edits is a finite map from
      sheet titles to sheets; a worksheet is the finite map from
      (row, column), both counted from 1, to the cells that openpyxl
      keeps; saving the workbook drops the cells that hold nothing. *)

From Stdlib Require Import String Ascii NArith ZArith List.
From Stdlib Require Import Floats.SpecFloat.
From stdpp Require Import base option list list_numbers gmap fin_maps.
Import ListNotations.

Local Open Scope N_scope.

(** ** Python strings *)

(** A [str] is its sequence of code points. *)
Definition pystr : Type := list N.

(** [str "abc"] is the Python literal ['abc'], for literals written with
    ASCII characters only. *)
Definition str (s : string) : pystr :=
  N_of_ascii <$> list_ascii_of_string s.
Arguments str : simpl never.

(** The characters for which [str.isdigit] is true: those of Unicode
    Numeric_Type Decimal or Digit.  The table is the one of the Unicode
    database 14.0.0 that CPython 3.11 carries, as closed ranges of code
    points.  Besides [0]..[9] it holds, for instance, the superscript
    digits and the digits of other scripts. *)
Definition digit_ranges : list (N * N) :=
  [ (0x30, 0x39); (0xB2, 0xB3); (0xB9, 0xB9); (0x660, 0x669);
    (0x6F0, 0x6F9); (0x7C0, 0x7C9); (0x966, 0x96F); (0x9E6, 0x9EF);
    (0xA66, 0xA6F); (0xAE6, 0xAEF); (0xB66, 0xB6F); (0xBE6, 0xBEF);
    (0xC66, 0xC6F); (0xCE6, 0xCEF); (0xD66, 0xD6F); (0xDE6, 0xDEF);
    (0xE50, 0xE59); (0xED0, 0xED9); (0xF20, 0xF29); (0x1040, 0x1049);
    (0x1090, 0x1099); (0x1369, 0x1371); (0x17E0, 0x17E9); (0x1810, 0x1819);
    (0x1946, 0x194F); (0x19D0, 0x19DA); (0x1A80, 0x1A89); (0x1A90, 0x1A99);
    (0x1B50, 0x1B59); (0x1BB0, 0x1BB9); (0x1C40, 0x1C49); (0x1C50, 0x1C59);
    (0x2070, 0x2070); (0x2074, 0x2079); (0x2080, 0x2089); (0x2460, 0x2468);
    (0x2474, 0x247C); (0x2488, 0x2490); (0x24EA, 0x24EA); (0x24F5, 0x24FD);
    (0x24FF, 0x24FF); (0x2776, 0x277E); (0x2780, 0x2788); (0x278A, 0x2792);
    (0xA620, 0xA629); (0xA8D0, 0xA8D9); (0xA900, 0xA909); (0xA9D0, 0xA9D9);
    (0xA9F0, 0xA9F9); (0xAA50, 0xAA59); (0xABF0, 0xABF9); (0xFF10, 0xFF19);
    (0x104A0, 0x104A9); (0x10A40, 0x10A43); (0x10D30, 0x10D39);
    (0x10E60, 0x10E68); (0x11052, 0x1105A); (0x11066, 0x1106F);
    (0x110F0, 0x110F9); (0x11136, 0x1113F); (0x111D0, 0x111D9);
    (0x112F0, 0x112F9); (0x11450, 0x11459); (0x114D0, 0x114D9);
    (0x11650, 0x11659); (0x116C0, 0x116C9); (0x11730, 0x11739);
    (0x118E0, 0x118E9); (0x11950, 0x11959); (0x11C50, 0x11C59);
    (0x11D50, 0x11D59); (0x11DA0, 0x11DA9); (0x16A60, 0x16A69);
    (0x16AC0, 0x16AC9); (0x16B50, 0x16B59); (0x1D7CE, 0x1D7FF);
    (0x1E140, 0x1E149); (0x1E2F0, 0x1E2F9); (0x1E950, 0x1E959);
    (0x1F100, 0x1F10A); (0x1FBF0, 0x1FBF9) ].

Definition in_range (c : N) (r : N * N) : bool :=
  (fst r <=? c) && (c <=? snd r).

(** [str.isdigit] on one character. *)
Definition str_isdigit (c : N) : bool :=
  existsb (in_range c) digit_ranges.

(** An ASCII digit, [0] to [9]. *)
Definition ascii_digit (c : N) : bool :=
  (0x30 <=? c) && (c <=? 0x39).

(** ** [limpar_cnpj] *)

(** [''.join(filter(str.isdigit, cnpj))]: iterating a [str] yields its
    characters one by one, and joining them on the empty separator
    concatenates the kept ones. *)
Definition limpar_cnpj (cnpj : pystr) : pystr :=
  List.filter str_isdigit cnpj.

(** ** Values and exceptions *)

Local Set Warnings "-register-all".

(** What [json.loads] returns: [None], a [bool], an [int], a [float], a
    [str], a [list] or a [dict] with [str] keys. *)
Inductive pyval : Type :=
  | PNone
  | PBool (b : bool)
  | PInt (z : Z)
  | PFloat (f : spec_float)
  | PStr (s : pystr)
  | PList (l : list pyval)
  | PDict (d : gmap pystr pyval).

(** The exception classes the script can meet. *)
Inductive exn : Type :=
  | KeyError
  | AttributeError
  | TypeError
  | ValueError
  | IndexError
  | OSError
  | UnicodeError
  | JSONDecodeError.

Inductive result (A : Type) : Type :=
  | Ok (a : A)
  | Raise (e : exn).
Arguments Ok {A} a.
Arguments Raise {A} e.

#[global] Instance result_ret : MRet result := fun _ a => Ok a.
#[global] Instance result_bind : MBind result := fun _ _ k r =>
  match r with
  | Ok a => k a
  | Raise e => Raise e
  end.
#[global] Instance result_fmap : FMap result := fun _ _ f r =>
  match r with
  | Ok a => Ok (f a)
  | Raise e => Raise e
  end.


(** *** The operations of Python objects the script uses *)

(** [bool(v)], the test of [if v:] and of [and]. *)
Definition truthy (v : pyval) : bool :=
  match v with
  | PNone => false
  | PBool b => b
  | PInt z => negb (z =? 0)%Z
  | PFloat (S754_zero _) => false
  | PFloat _ => true
  | PStr s => negb (bool_decide (s = []))
  | PList l => negb (Nat.eqb (length l) 0)
  | PDict d => negb (Nat.eqb (size d) 0)
  end.

(** [v == k] for a [str] literal [k]: a [str] equals only a [str] with
    the same characters. *)
Definition eq_str (k : pystr) (v : pyval) : bool :=
  match v with
  | PStr s => bool_decide (s = k)
  | _ => false
  end.

Fixpoint starts_with (k s : pystr) : bool :=
  match k, s with
  | [], _ => true
  | a :: k', b :: s' => (a =? b) && starts_with k' s'
  | _ :: _, [] => false
  end.

Local Close Scope N_scope.

(** [k in s] for two [str]: [k] occurs in [s] as a substring. *)
Fixpoint substring (k s : pystr) : bool :=
  starts_with k s ||
  match s with
  | [] => false
  | _ :: s' => substring k s'
  end.

(** [k in o] for a [str] literal [k]: key membership in a [dict],
    element membership by [==] in a [list], substring test in a [str];
    the other types are not iterable. *)
Definition py_contains (k : pystr) (o : pyval) : result bool :=
  match o with
  | PDict d => Ok (bool_decide (is_Some (d !! k)))
  | PList l => Ok (existsb (eq_str k) l)
  | PStr s => Ok (substring k s)
  | _ => Raise TypeError
  end.

(** [o[k]] for a [str] literal [k]. *)
Definition py_getitem (o : pyval) (k : pystr) : result pyval :=
  match o with
  | PDict d =>
      match d !! k with
      | Some v => Ok v
      | None => Raise KeyError
      end
  | _ => Raise TypeError
  end.

(** [o[0]].  A [dict] from JSON has only [str] keys, so [0] is never
    among them. *)
Definition py_getitem0 (o : pyval) : result pyval :=
  match o with
  | PList (x :: _) => Ok x
  | PList [] => Raise IndexError
  | PStr (c :: _) => Ok (PStr [c])
  | PStr [] => Raise IndexError
  | PDict _ => Raise KeyError
  | _ => Raise TypeError
  end.

(** [o.get(k, dflt)]: only a [dict] has the method. *)
Definition py_get (o : pyval) (k : pystr) (dflt : pyval) : result pyval :=
  match o with
  | PDict d => Ok (default dflt (d !! k))
  | _ => Raise AttributeError
  end.

(** ** [formatar_dados] *)

(** The [dict] the formatter builds keeps the order in which its keys
    were inserted, and a [DataFrame] takes its column order from it: an
    association list, keys in insertion order. *)
Definition linha : Type := list (pystr * pyval).

(** [d[k] = v]: the value of an existing key is replaced in place, a new
    key goes to the end. *)
Fixpoint dict_setitem (d : linha) (k : pystr) (v : pyval) : linha :=
  match d with
  | [] => [(k, v)]
  | (k', v') :: d' =>
      if bool_decide (k' = k) then (k, v) :: d'
      else (k', v') :: dict_setitem d' k v
  end.

(** The value of a field of such a [dict], if it has the field. *)
Fixpoint dict_lookup (d : linha) (k : pystr) : option pyval :=
  match d with
  | [] => None
  | (k', v') :: d' => if bool_decide (k' = k) then Some v' else dict_lookup d' k
  end.

Definition campos_interesse : list pystr :=
  [ str "cnpj"; str "nome"; str "telefone"; str "email"; str "logradouro";
    str "bairro"; str "municipio"; str "uf"; str "cep";
    str "atividade_principal" ].

(** [{campo: empresa.get(campo, '') for campo in campos}]: the keys of
    [campos] are distinct, so each iteration adds a new entry. *)
Fixpoint dict_comprehension (empresa : pyval) (campos : list pystr)
  : result linha :=
  match campos with
  | [] => Ok []
  | campo :: campos' =>
      v ← py_get empresa campo (PStr []);
      d ← dict_comprehension empresa campos';
      Ok ((campo, v) :: d)
  end.

(** ['atividade_principal' in empresa and empresa['atividade_principal']]
    as the test of the [if]: the right operand is evaluated only when the
    left one is true. *)
Definition tem_atividade (empresa : pyval) : result bool :=
  presente ← py_contains (str "atividade_principal") empresa;
  if (presente : bool)
  then truthy <$> py_getitem empresa (str "atividade_principal")
  else Ok false.

Definition formatar_dados (empresa : pyval) : result linha :=
  dados_formatados ← dict_comprehension empresa campos_interesse;
  cheio ← tem_atividade empresa;
  if (cheio : bool) then
    atividades ← py_getitem empresa (str "atividade_principal");
    primeira ← py_getitem0 atividades;
    texto ← py_get primeira (str "text") (PStr []);
    Ok (dict_setitem dados_formatados (str "atividade_principal") texto)
  else Ok dados_formatados.

(** ** The spreadsheet file *)

(** A cell as openpyxl holds it: its value, if it has one, and whether it
    carries a style.  A cell can be there without a value. *)
Record celula : Type := {
  valor : option pyval;
  estilo : bool
}.

(** A worksheet is openpyxl's dictionary of cells, keyed by (row, column),
    both counted from 1. *)
Abbreviation worksheet := (gmap (nat * nat) celula).

(** A sheet of a workbook is a worksheet or a chart sheet. *)
Inductive folha : Type :=
  | Worksheet (cells : worksheet)
  | Chartsheet.

(** A workbook maps the titles of its sheets, which openpyxl keeps
    distinct, to the sheets. *)
Abbreviation workbook := (gmap pystr folha).

(** [Worksheet.max_row]: 1 for a sheet without cells, otherwise the
    greatest row index that has a cell, with or without a value. *)
Definition max_row (ws : worksheet) : nat :=
  if Nat.eqb (size ws) 0 then 1
  else max_list_with (fun kv => kv.1.1) (map_to_list ws).

(** [book[name]]: the title is looked up as it is written. *)
Definition book_getitem (book : workbook) (name : pystr) : result folha :=
  match book !! name with
  | Some sheet => Ok sheet
  | None => Raise KeyError
  end.

(** [sheet.max_row]: a chart sheet has no such attribute. *)
Definition folha_max_row (sheet : folha) : result nat :=
  match sheet with
  | Worksheet ws => Ok (max_row ws)
  | Chartsheet => Raise AttributeError
  end.

(** *** Sheet titles *)

(** [str.lower] on the characters it turns into ASCII ones: the capital
    letters [A] to [Z] and the Kelvin sign U+212A.  No other character
    has an ASCII lower case, so for an ASCII title [t] the test
    [lower n = lower t] is [n.lower() == t.lower()] for every [n]. *)
Definition lower_char (c : N) : N :=
  if ((0x41 <=? c) && (c <=? 0x5A))%N then (c + 0x20)%N
  else if (c =? 0x212A)%N then 0x6B%N
  else c.

Definition lower (s : pystr) : pystr := lower_char <$> s.

(** The characters of openpyxl's [INVALID_TITLE_REGEX]: backslash, [*],
    [?], [:], [/] and the square brackets. *)
Definition titulo_invalido (c : N) : bool :=
  existsb (N.eqb c) [0x5C; 0x2A; 0x3F; 0x3A; 0x2F; 0x5B; 0x5D]%N.

(** The checks of the [title] setter of a sheet: a title has at least
    one character and none of the invalid ones. *)
Definition validar_titulo (t : pystr) : result unit :=
  match t with
  | [] => Raise ValueError
  | _ :: _ => if existsb titulo_invalido t then Raise ValueError else Ok ()
  end.

(** [",".join(names)]. *)
Fixpoint join_virgula (names : list pystr) : pystr :=
  match names with
  | [] => []
  | [n] => n
  | n :: resto => n ++ 0x2C%N :: join_virgula resto
  end.

(** What follows [k] at the start of [s], letters compared without
    regard to case, if [s] starts with [k]. *)
Fixpoint apos_prefixo (k s : pystr) : option pystr :=
  match k, s with
  | [], _ => Some s
  | a :: k', b :: s' =>
      if (lower_char a =? lower_char b)%N then apos_prefixo k' s' else None
  | _ :: _, [] => None
  end.

(** The digits [s] starts with, and what follows them. *)
Fixpoint digitos_a_frente (s : pystr) : pystr * pystr :=
  match s with
  | c :: s' =>
      if ascii_digit c
      then let (d, r) := digitos_a_frente s' in (c :: d, r)
      else ([], s)
  | [] => ([], [])
  end.

(** The [count] groups that [findall] gives on [s] for the pattern of
    [avoid_duplicate_name]: [value], then any digits, the group, then a
    comma if there is one, with [re.I].  The matches are taken from left
    to right and do not overlap.  [n] bounds the number of steps. *)
Fixpoint contagens (n : nat) (value s : pystr) : list pystr :=
  match n with
  | 0 => []
  | S n' =>
      match apos_prefixo value s with
      | Some r1 =>
          let (d, r2) := digitos_a_frente r1 in
          d :: contagens n' value
                 match r2 with
                 | c :: r3 => if (c =? 0x2C)%N then r3 else r2
                 | [] => []
                 end
      | None =>
          match s with
          | [] => []
          | _ :: s' => contagens n' value s'
          end
      end
  end.

(** [int(idx)] for a string of digits. *)
Definition int_de (ds : pystr) : N :=
  foldl (fun a c => (10 * a + (c - 0x30))%N) 0%N ds.

(** The decimal digits of a number, as [format] writes them. *)
Fixpoint decimal_aux (n : nat) (x : N) (acc : pystr) : pystr :=
  match n with
  | 0 => acc
  | S n' =>
      let acc' := (0x30 + x mod 10)%N :: acc in
      if (x <? 10)%N then acc' else decimal_aux n' (x / 10)%N acc'
  end.

Definition decimal (x : N) : pystr :=
  decimal_aux (S (N.to_nat (N.log2 x))) x [].

(** openpyxl's [avoid_duplicate_name(names, value)]: when a name equals
    [value] but for the case of its letters, [value] gets a number, one
    more than the greatest that follows an occurrence of [value] among
    the names. *)
Definition avoid_duplicate_name (names : list pystr) (value : pystr)
  : pystr :=
  if existsb (fun n => bool_decide (lower n = lower value)) names then
    let juntos := join_virgula names in
    match contagens (S (length juntos)) value juntos with
    | [] => value
    | grupos =>
        let counts :=
          int_de <$> List.filter (fun d => negb (bool_decide (d = []))) grupos in
        value ++ decimal (foldr N.max 0%N counts + 1)
    end
  else value.

(** The titles of the sheets of a workbook. *)
Definition titulos (book : workbook) : list pystr := (map_to_list book).*1.

(** *** Writing a data frame *)

(** A [DataFrame]: the column labels and the rows of values. *)
Record DataFrame : Type := {
  columns : list pystr;
  data : list (list pyval)
}.

(** [pd.DataFrame(registros)] for a list of dicts that all have the same
    keys in the same order, as the rows of [formatar_dados] have: the
    columns are those keys, each dict gives one row.  The values are kept
    as they are, which is what pandas does with columns of [str]. *)
Definition pd_DataFrame (registros : list linha) : DataFrame :=
  {| columns := match registros with
                | [] => []
                | r :: _ => r.*1
                end;
     data := (fun r : linha => r.*2) <$> registros |}.

(** The cells of one row, from column [c] on. *)
Fixpoint celulas_linha (r c : nat) (vals : list pyval)
  : list ((nat * nat) * pyval) :=
  match vals with
  | [] => []
  | v :: vals' => ((r, c), v) :: celulas_linha r (S c) vals'
  end.

(** The cells of consecutive rows, from row [r] on, columns from 1. *)
Fixpoint celulas_linhas (r : nat) (linhas : list (list pyval))
  : list ((nat * nat) * pyval) :=
  match linhas with
  | [] => []
  | l :: linhas' => celulas_linha r 1 l ++ celulas_linhas (S r) linhas'
  end.

(** The cell that [xcell = wks.cell(row, column); xcell.value = v] leaves
    where the sheet had [o]: the cell is made if there was none, a cell
    that was there keeps its style, and pandas gives the cells of a
    header a style of their own. *)
Definition posta (com_estilo : bool) (o : option celula) (v : pyval)
  : celula :=
  {| valor := Some v;
     estilo := com_estilo || from_option estilo false o |}.

Definition atribuir (com_estilo : bool) (ws : worksheet)
    (kv : (nat * nat) * pyval) : worksheet :=
  <[kv.1 := posta com_estilo (ws !! kv.1) kv.2]> ws.

(** The same for each cell in turn. *)
Definition escrever (com_estilo : bool) (ws : worksheet)
    (cells : list ((nat * nat) * pyval)) : worksheet :=
  foldl (atribuir com_estilo) ws cells.

(** [df.to_excel(writer, sheet_name=..., index=False, header=...,
    startrow=...)] on a writer opened with [mode='a'] and
    [if_sheet_exists='overlay'], for a data frame of [str] values that
    fits in the sheet.  [startrow] counts from 0.  With [header], the
    column labels are the first row written.  An existing sheet of that
    title is written over in place, cell by cell.  Otherwise
    [wks = book.create_sheet()] adds a worksheet under the default title
    [Sheet], numbered if that title is taken, and [wks.title = sheet_name]
    renames it: an invalid title raises [ValueError] and leaves the new
    sheet behind, and a title that another sheet has but for the case of
    its letters gets a number. *)
Definition to_excel (df : DataFrame) (book : workbook) (sheet_name : pystr)
    (header : bool) (startrow : nat) : workbook * result unit :=
  let cabecalho :=
    if header then celulas_linha (S startrow) 1 (PStr <$> columns df)
    else [] in
  let linhas :=
    celulas_linhas (if header then S (S startrow) else S startrow)
      (data df) in
  let escrita ws := escrever false (escrever true ws cabecalho) linhas in
  match book !! sheet_name with
  | Some (Worksheet ws) =>
      (<[sheet_name := Worksheet (escrita ws)]> book, Ok ())
  | Some Chartsheet =>
      match cabecalho ++ linhas with
      | [] => (book, Ok ())
      | _ :: _ => (book, Raise AttributeError)
      end
  | None =>
      let provisorio := avoid_duplicate_name (titulos book) (str "Sheet") in
      match validar_titulo sheet_name with
      | Raise e => (<[provisorio := Worksheet ∅]> book, Raise e)
      | Ok _ =>
          let titulo :=
            if bool_decide (sheet_name = provisorio) then sheet_name
            else avoid_duplicate_name (titulos book ++ [provisorio])
                   sheet_name in
          (<[titulo := Worksheet (escrita ∅)]> book, Ok ())
      end
  end.

(** *** Saving *)

(** What the file keeps of a cell when the workbook is saved: a cell
    without value and without style is not written, and an empty string
    is written as a cell without value. *)
Definition guardar_celula (c : celula) : option celula :=
  match valor c with
  | None => if estilo c then Some c else None
  | Some (PStr []) => Some {| valor := None; estilo := estilo c |}
  | Some _ => Some c
  end.

Definition guardar_folha (f : folha) : folha :=
  match f with
  | Worksheet ws => Worksheet (omap guardar_celula ws)
  | Chartsheet => Chartsheet
  end.

(** [book.save(...)]: the workbook as it is read from the saved file. *)
Definition guardar (book : workbook) : workbook := guardar_folha <$> book.

(** ** The world the script runs in *)

(** What happens to the body of a response: [read] fails, decoding it as
    UTF-8 JSON fails, or [json.loads(dados.decode("utf-8"))] gives a
    document. *)
Inductive corpo : Type :=
  | Ilegivel (e : exn)
  | Invalido (e : exn)
  | Documento (v : pyval).

(** What the registry does with a request: the request or the wait for
    the response fails, or a response arrives. *)
Inductive transporte : Type :=
  | Falha (e : exn)
  | Resposta (status : Z) (c : corpo).

(** The registry, asked with the number of requests made before and the
    path requested. *)
Abbreviation registro := (nat -> pystr -> transporte).

(** The lines the script prints. *)
Inductive mensagem : Type :=
  | MsgLendo (cnpj : pystr)
  | MsgProcessando (cnpj : pystr) (status : Z)
  | MsgErro (cnpj : pystr) (message : pyval)
  | MsgSalvos.

(** What a run does to the world outside: requests, closed connections,
    printed lines, and the opening of the workbook for appending. *)
Inductive evento : Type :=
  | EvRequest (caminho : pystr)
  | EvClose
  | EvPrint (m : mensagem)
  | EvExcelWriter (nome_arquivo : pystr).

(** The state of a run: the requests made, the events so far (oldest
    first), the files on disk, and the module's global [resultados]. *)
Record estado : Type := {
  pedidos : nat;
  saida : list evento;
  disco : gmap pystr workbook;
  resultados : list linha
}.

(** A piece of the script: from a state it gives the next state and
    returns a value or raises. *)
Definition M (A : Type) : Type := estado -> estado * result A.

#[global] Instance M_ret : MRet M := fun _ a st => (st, Ok a).
#[global] Instance M_bind : MBind M := fun _ _ k m st =>
  match m st with
  | (st', Ok a) => k a st'
  | (st', Raise e) => (st', Raise e)
  end.

Definition raise {A} (e : exn) : M A := fun st => (st, Raise e).

Definition lift {A} (r : result A) : M A := fun st => (st, r).

Definition emit (ev : evento) : M unit := fun st =>
  ({| pedidos := pedidos st; saida := saida st ++ [ev];
      disco := disco st; resultados := resultados st |}, Ok ()).

Definition print (m : mensagem) : M unit := emit (EvPrint m).

(** [conexao.request("GET", caminho)] followed by
    [conexao.getresponse()]. *)
Definition request (servidor : registro) (caminho : pystr) : M (Z * corpo) :=
  fun st =>
    let st' := {| pedidos := S (pedidos st);
                  saida := saida st ++ [EvRequest caminho];
                  disco := disco st; resultados := resultados st |} in
    match servidor (pedidos st) caminho with
    | Falha e => (st', Raise e)
    | Resposta status c => (st', Ok (status, c))
    end.

(** ** [obter_dados_empresa_por_cnpj] *)

(** The body of a 200 response: [dados = resposta.read()], then
    [conexao.close()], then [json.loads(dados.decode("utf-8"))]. *)
Definition ler_e_decodificar (c : corpo) : M pyval :=
  match c with
  | Ilegivel e => raise e
  | Invalido e => emit EvClose;; raise e
  | Documento v => emit EvClose;; mret v
  end.

(** ["status" in empresa and empresa["status"] == "ERROR"]. *)
Definition status_de_erro (empresa : pyval) : result bool :=
  presente ← py_contains (str "status") empresa;
  if (presente : bool)
  then eq_str (str "ERROR") <$> py_getitem empresa (str "status")
  else Ok false.

Definition obter_dados_empresa_por_cnpj (servidor : registro) (cnpj : pystr)
  : M pyval :=
  let cnpj := limpar_cnpj cnpj in
  resposta ← request servidor (str "/v1/cnpj/" ++ cnpj);
  print (MsgProcessando cnpj resposta.1);;
  if negb (resposta.1 =? 200)%Z then
    emit EvClose;;
    mret PNone
  else
    empresa ← ler_e_decodificar resposta.2;
    erro ← lift (status_de_erro empresa);
    if (erro : bool) then
      message ← lift (py_get empresa (str "message")
                        (PStr (str "Sem mensagem de erro")));
      print (MsgErro cnpj message);;
      mret PNone
    else mret empresa.

(** ** [salvar_dados_empresa_excel] *)

(** The probe that opens the [try] block:
    [worksheet = writer.book[nome_aba]] and
    [start_row = worksheet.max_row]. *)
Definition sondar (book : workbook) (nome_aba : pystr) : result nat :=
  worksheet ← book_getitem book nome_aba;
  folha_max_row worksheet.

(** The [try] block: after the probe, the rows are written below
    [start_row] without a header. *)
Definition anexar (df : DataFrame) (book : workbook) (nome_aba : pystr)
  : workbook * result unit :=
  match sondar book nome_aba with
  | Raise e => (book, Raise e)
  | Ok start_row => to_excel df book nome_aba false start_row
  end.

(** The [try] statement: only [KeyError] has a handler, which writes the
    rows with a header from the first row. *)
Definition anexar_ou_criar (df : DataFrame) (book : workbook)
    (nome_aba : pystr) : workbook * result unit :=
  match anexar df book nome_aba with
  | (book', Raise KeyError) => to_excel df book' nome_aba true 0
  | outro => outro
  end.

(** [with pd.ExcelWriter(nome_arquivo, engine='openpyxl', mode='a',
    if_sheet_exists='overlay') as writer: corpo]: the file is opened for
    appending, which fails when it does not exist; on leaving the block,
    by its end or by an exception, the writer saves the workbook. *)
Definition com_ExcelWriter (nome_arquivo : pystr)
    (corpo : workbook -> workbook * result unit) : M unit :=
  emit (EvExcelWriter nome_arquivo);;
  ((fun st =>
      match disco st !! nome_arquivo with
      | None => (st, Raise OSError)
      | Some book =>
          let (book', r) := corpo book in
          ({| pedidos := pedidos st; saida := saida st;
              disco := <[nome_arquivo := guardar book']> (disco st);
              resultados := resultados st |}, r)
      end) : M unit).

Definition salvar_dados_empresa_excel (resultados_df : DataFrame)
    (nome_arquivo nome_aba : pystr) : M unit :=
  com_ExcelWriter nome_arquivo
    (fun book => anexar_ou_criar resultados_df book nome_aba).

(** ** The driver *)

Definition caminho_planilha : pystr := str "CNPJ.xlsx".

(** [serie.dropna()]: a missing value is [None] here. *)
Definition dropna (coluna : list (option pystr)) : list pystr :=
  omap id coluna.

(** [resultados = []]. *)
Definition resultados_init : M unit := fun st =>
  ({| pedidos := pedidos st; saida := saida st; disco := disco st;
      resultados := [] |}, Ok ()).

(** Reading the global [resultados]. *)
Definition resultados_get : M (list linha) := fun st =>
  (st, Ok (resultados st)).

(** [resultados.append(x)]. *)
Definition resultados_append (x : linha) : M unit := fun st =>
  ({| pedidos := pedidos st; saida := saida st; disco := disco st;
      resultados := resultados st ++ [x] |}, Ok ()).

(** One turn of the [for] loop. *)
Definition passo (servidor : registro) (cnpj : pystr) : M unit :=
  print (MsgLendo cnpj);;
  dados_empresa ← obter_dados_empresa_por_cnpj servidor cnpj;
  if truthy dados_empresa then
    dados_formatados ← lift (formatar_dados dados_empresa);
    resultados_append dados_formatados
  else mret ().

(** The [for] loop: an exception ends it, and the run. *)
Fixpoint laco (servidor : registro) (cnpjs : list pystr) : M unit :=
  match cnpjs with
  | [] => mret ()
  | cnpj :: resto => passo servidor cnpj;; laco servidor resto
  end.

(** The module-level code from [resultados = []] on.  [coluna] is the
    column [planilha_cnpjs['CNPJ']] read at the start of the run. *)
Definition principal (servidor : registro) (coluna : list (option pystr))
  : M unit :=
  resultados_init;;
  laco servidor (dropna coluna);;
  rs ← resultados_get;
  match rs with
  | [] => mret ()
  | _ :: _ =>
      salvar_dados_empresa_excel (pd_DataFrame rs) caminho_planilha
        (str "Dados")
  end;;
  print MsgSalvos.

(** * The vocabulary of the properties *)

(** The row whose field [c] holds [f c], for the ten fields in order. *)
Definition linha_de (f : pystr -> pyval) : linha :=
  (fun c => (c, f c)) <$> campos_interesse.

(** The generic lookup of a field: [empresa.get(campo, '')]. *)
Definition campo_ou_vazio (d : gmap pystr pyval) (campo : pystr) : pyval :=
  default (PStr []) (d !! campo).

(** The shapes of [atividade_principal] the formatter is written for:
    no such field, a falsy value, or a list that starts with a
    mapping. *)
Definition atividade_esperada (d : gmap pystr pyval) : bool :=
  match d !! str "atividade_principal" with
  | None => true
  | Some v =>
      negb (truthy v) ||
      match v with
      | PList (PDict _ :: _) => true
      | _ => false
      end
  end.

(** The word of the specification's example, with its accented letter
    U+00E9. *)
Definition comercio : pystr :=
  str "Com" ++ [0xE9%N] ++ str "rcio".

(** The path the client asks for. *)
Definition caminho (cnpj : pystr) : pystr :=
  str "/v1/cnpj/" ++ limpar_cnpj cnpj.

(** The cell of a table, rows and columns counted from 1. *)
Definition celula_de (linhas : list (list pyval)) (r c : nat) : option pyval :=
  match r, c with
  | S i, S j => linhas !! i ≫= (fun l : list pyval => l !! j)
  | _, _ => None
  end.

(** The cell at a place after a write: the value written there, if one
    was, put in the cell the sheet had. *)
Definition sobre_celula (com_estilo : bool) (ov : option pyval)
    (oc : option celula) : option celula :=
  match ov with
  | Some v => Some (posta com_estilo oc v)
  | None => oc
  end.

(** [o1], or [o2] where [o1] has nothing. *)
Definition sobre {A} (o1 o2 : option A) : option A :=
  match o1 with
  | Some v => Some v
  | None => o2
  end.

(** The values of a batch of rows, row by row. *)
Definition valores (registros : list linha) : list (list pyval) :=
  (fun r : linha => r.*2) <$> registros.

(** The value of a cell of a sheet, if the sheet has the cell and the
    cell has a value. *)
Definition valor_em (ws : worksheet) (p : nat * nat) : option pyval :=
  ws !! p ≫= valor.

(** What a value written to a cell reads as once the workbook is saved:
    the empty string leaves a cell without value. *)
Definition guardado (v : pyval) : option pyval :=
  match v with
  | PStr [] => None
  | _ => Some v
  end.

(** A character that the file takes and gives back as it is: a printable
    one of the Basic Multilingual Plane. *)
Definition caractere_simples (c : N) : bool :=
  (((0x20 <=? c) && (c <=? 0x7E)) || ((0xA0 <=? c) && (c <=? 0xD7FF)))%N.

(** A value that the cell of a sheet takes and gives back as it is:
    a [str] of such characters, the empty one included, that is not
    longer than a cell can hold, is not written as a formula and has no
    escape of the file format in it. *)
Definition texto_simples (v : pyval) : bool :=
  match v with
  | PStr s =>
      forallb caractere_simples s && (N.of_nat (length s) <=? 32767)%N &&
      negb (starts_with [0x3D%N] s) && negb (substring (str "x005F_") s)
  | _ => false
  end.

(** A row of the ten fields, in order. *)
Definition linha_formatada (r : linha) : Prop := r.*1 = campos_interesse.

(** A row of the ten fields whose values are such text. *)
Definition linha_de_texto (r : linha) : Prop :=
  linha_formatada r /\ forallb texto_simples r.*2 = true.

(** A batch the appender is made for: at least one row, all of them
    such rows. *)
Definition lote_de_texto (B : list linha) : Prop :=
  B <> [] /\ Forall linha_de_texto B.

(** A row index that a sheet has: a sheet has 1048576 rows. *)
Definition cabe (n : nat) : Prop := (N.of_nat n <= 1048576)%N.

(** A title that the creation of a sheet takes as it is: printable ASCII
    characters, at least one and at most 31, none of them invalid, not
    starting with the default title, and such that no sheet of the
    workbook has that title, whatever the case of the letters. *)
Definition titulo_simples (aba : pystr) : bool :=
  negb (bool_decide (aba = [])) &&
  forallb (fun c => ((0x20 <=? c) && (c <=? 0x7E))%N && negb (titulo_invalido c))
    aba &&
  (length aba <=? 31) &&
  negb (starts_with (str "sheet") (lower aba)).

Definition titulo_livre (book : workbook) (aba : pystr) : Prop :=
  titulo_simples aba = true /\
  forall n, is_Some (book !! n) -> lower n <> lower aba.

(** The sheet in memory after rows are written below the last row of a
    sheet, and the sheet in memory that is created from a header and
    rows. *)
Definition folha_anexada (ws : worksheet) (linhas : list (list pyval))
  : worksheet :=
  escrever false ws (celulas_linhas (S (max_row ws)) linhas).

Definition folha_criada (cab : list pyval) (linhas : list (list pyval))
  : worksheet :=
  escrever false (escrever true ∅ (celulas_linha 1 1 cab))
    (celulas_linhas 2 linhas).

(** The state after an invocation of the appender on the file [arq]
    that left the workbook [book] there. *)
Definition gravado (st : estado) (arq : pystr) (book : workbook) : estado :=
  {| pedidos := pedidos st;
     saida := saida st ++ [EvExcelWriter arq];
     disco := <[arq := book]> (disco st);
     resultados := resultados st |}.

(** A formatted row, a workbook that has only the input sheet, and a
    state whose disk holds that workbook, for the examples below. *)
Definition linha_exemplo : linha := linha_de (fun _ => PStr (str "x")).

Definition livro_exemplo : workbook := {[ str "CNPJ" := Worksheet ∅ ]}.

Definition estado_exemplo : estado :=
  {| pedidos := 0; saida := [];
     disco := {[ caminho_planilha := livro_exemplo ]};
     resultados := [] |}.

(** A workbook in which the target title belongs to a chart sheet. *)
Definition livro_grafico : workbook :=
  {[ str "CNPJ" := Worksheet ∅; str "Dados" := Chartsheet ]}.

Definition estado_grafico : estado :=
  {| pedidos := 0; saida := [];
     disco := {[ caminho_planilha := livro_grafico ]};
     resultados := [] |}.

(** What the lookup of [cnpj] returns when [n] requests were made
    before it. *)
Definition registro_de (servidor : registro) (n : nat) (cnpj : pystr)
  : result pyval :=
  (obter_dados_empresa_por_cnpj servidor cnpj
     {| pedidos := n; saida := []; disco := ∅; resultados := [] |}).2.

(** The identifiers with the number of requests made before each: every
    identifier costs one request. *)
Fixpoint numerar (n : nat) (cnpjs : list pystr) : list (nat * pystr) :=
  match cnpjs with
  | [] => []
  | cnpj :: resto => (n, cnpj) :: numerar (S n) resto
  end.

(** The identifier yielded a record: its lookup returned a value that
    passes the test [if dados_empresa:]. *)
Definition rende (servidor : registro) (p : nat * pystr) : bool :=
  match registro_de servidor p.1 p.2 with
  | Ok v => truthy v
  | Raise _ => false
  end.

(** The row is the formatted record of the identifier. *)
Definition linha_do_cnpj (servidor : registro) (p : nat * pystr) (row : linha)
  : Prop :=
  exists v, registro_de servidor p.1 p.2 = Ok v /\ truthy v = true /\
            formatar_dados v = Ok row.

(** An event that is not an invocation of the appender. *)
Definition sem_ExcelWriter (ev : evento) : Prop :=
  match ev with
  | EvExcelWriter _ => False
  | _ => True
  end.

(** The state in which the loop starts: [resultados = []]. *)
Definition estado_inicial (st : estado) : estado :=
  {| pedidos := pedidos st; saida := saida st; disco := disco st;
     resultados := [] |}.

(** The registry of the end-to-end scenario of the specification: the
    first identifier has a record, every other request gets a 404. *)
Definition servidor_exemplo : registro := fun _ caminho =>
  if bool_decide (caminho = str "/v1/cnpj/11222333000181")
  then Resposta 200
         (Documento
            (PDict {[ str "nome" := PStr (str "ACME");
                      str "atividade_principal" :=
                        PList [PDict {[ str "text" := PStr comercio ]}] ]}))
  else Resposta 404 (Invalido JSONDecodeError).

Definition coluna_exemplo : list (option pystr) :=
  [Some (str "11.222.333/0001-81"); None; Some (str "99999999999")].

(** A registry that answers every request with a 404. *)
Definition servidor_404 : registro := fun _ _ =>
  Resposta 404 (Invalido JSONDecodeError).

(** A registry that answers every request with the empty mapping. *)
Definition servidor_vazio : registro := fun _ _ =>
  Resposta 200 (Documento (PDict ∅)).

(** The paths requested, in order, among some events. *)
Definition pedidos_feitos (evs : list evento) : list pystr :=
  omap (fun ev => match ev with
                  | EvRequest p => Some p
                  | _ => None
                  end) evs.

(** The identifiers announced by the loop, in order, among some events. *)
Definition lidos (evs : list evento) : list pystr :=
  omap (fun ev => match ev with
                  | EvPrint (MsgLendo c) => Some c
                  | _ => None
                  end) evs.

(** How many times a connection was closed among some events. *)
Definition fechos (evs : list evento) : nat :=
  length (List.filter (fun ev => match ev with
                                 | EvClose => true
                                 | _ => false
                                 end) evs).

(** What a lookup does after its request: it closes the connection and
    prints its own two kinds of lines, nothing else. *)
Definition evento_da_consulta (ev : evento) : Prop :=
  match ev with
  | EvClose | EvPrint (MsgProcessando _ _) | EvPrint (MsgErro _ _) => True
  | _ => False
  end.

(** An event the loop can cause: anything but an invocation of the
    appender and the final message. *)
Definition evento_do_laco (ev : evento) : Prop :=
  match ev with
  | EvExcelWriter _ | EvPrint MsgSalvos => False
  | _ => True
  end.

(** Consecutive invocations of the appender on the same file and sheet,
    one batch each, as consecutive runs make them. *)
Fixpoint salvar_lotes (lotes : list (list linha)) (arq aba : pystr) : M unit :=
  match lotes with
  | [] => mret ()
  | B :: lotes' =>
      salvar_dados_empresa_excel (pd_DataFrame B) arq aba;;
      salvar_lotes lotes' arq aba
  end.

(** A formatted row as the [dict] it is, to be handed to a function that
    takes a mapping. *)
Definition linha_como_dict (r : linha) : pyval := PDict (list_to_map r).

(** A formatted row as a registry record with only a name gives it: the
    other fields are empty strings. *)
Definition linha_parcial : linha :=
  linha_de (fun c => PStr (if bool_decide (c = str "nome")
                           then str "ACME" else [])).

(** A sheet as a first run leaves it in the file, with the header and
    one row, and a workbook whose sheet [Dados] it is. *)
Definition folha_com_dados : worksheet :=
  omap guardar_celula
    (folha_criada (PStr <$> campos_interesse) (valores [linha_parcial])).

Definition livro_com_dados : workbook :=
  {[ str "CNPJ" := Worksheet ∅; str "Dados" := Worksheet folha_com_dados ]}.

Definition estado_com_dados : estado :=
  {| pedidos := 0; saida := [];
     disco := {[ caminho_planilha := livro_com_dados ]};
     resultados := [] |}.

(** A workbook whose sheet [Dados] exists without cells. *)
Definition livro_em_branco : workbook :=
  {[ str "CNPJ" := Worksheet ∅; str "Dados" := Worksheet ∅ ]}.

Definition estado_em_branco : estado :=
  {| pedidos := 0; saida := [];
     disco := {[ caminho_planilha := livro_em_branco ]};
     resultados := [] |}.




(** A registry whose 200 responses do not decode. *)
Definition servidor_invalido : registro := fun _ _ =>
  Resposta 200 (Invalido JSONDecodeError).

(** A registry that answers every request with a JSON string. *)
Definition servidor_texto : registro := fun _ _ =>
  Resposta 200 (Documento (PStr (str "Too many requests"))).

(** * Properties *)

(** ** The normalizer *)

Section Normalizer.

Local Open Scope N_scope.

Lemma limpar_cnpj_cons c s :
  limpar_cnpj (c :: s) =
  if str_isdigit c then c :: limpar_cnpj s else limpar_cnpj s.
Proof. reflexivity. Qed.

(** Every character kept is one [str.isdigit] accepts. *)
Lemma limpar_cnpj_isdigit s :
  Forall (fun c => str_isdigit c = true) (limpar_cnpj s).
Proof.
  induction s as [|c s IH]; [constructor|].
  rewrite limpar_cnpj_cons. destruct (str_isdigit c) eqn:Hc; auto.
Qed.

(** The result is the input with some characters struck out. *)
Lemma limpar_cnpj_sublist s : limpar_cnpj s `sublist_of` s.
Proof.
  induction s as [|c s IH]; [constructor|].
  rewrite limpar_cnpj_cons. destruct (str_isdigit c); by constructor.
Qed.

(** A string of digits is left as it is. *)
Lemma limpar_cnpj_fixed s :
  Forall (fun c => str_isdigit c = true) s -> limpar_cnpj s = s.
Proof.
  induction 1 as [|c s Hc _ IH]; [done|].
  by rewrite limpar_cnpj_cons, Hc, IH.
Qed.

(** Below 128 the only ranges of the table that matter are those of
    [0]..[9]: every other range starts above. *)
Lemma digit_ranges_above :
  forallb (fun r => 128 <=? fst r) (tail digit_ranges) = true.
Proof. vm_compute. reflexivity. Qed.

Lemma existsb_in_range_above c l :
  c < 128 ->
  forallb (fun r => 128 <=? fst r) l = true ->
  existsb (in_range c) l = false.
Proof.
  intros Hc. induction l as [|r l IH]; simpl; [done|].
  intros [Hr Hl]%andb_prop. rewrite (IH Hl), orb_false_r.
  unfold in_range. apply andb_false_intro1, N.leb_gt.
  apply N.leb_le in Hr. lia.
Qed.

Lemma str_isdigit_ascii c : c < 128 -> str_isdigit c = ascii_digit c.
Proof.
  intros Hc.
  change (str_isdigit c) with
    (in_range c (0x30, 0x39) || existsb (in_range c) (tail digit_ranges)).
  rewrite (existsb_in_range_above c _ Hc digit_ranges_above).
  by rewrite orb_false_r.
Qed.

End Normalizer.

(** C5, as the code has it.  For every string, [limpar_cnpj] keeps
    exactly the characters that [str.isdigit] accepts, in their order, so
    the result is no longer than the input; these characters are the
    ASCII digits and the other Unicode digits, so the result holds only
    [0]..[9] when the input holds only ASCII characters.  The three
    examples of the specification hold. *)
Theorem limpar_cnpj_spec :
  (forall s : pystr,
      Forall (fun c => str_isdigit c = true) (limpar_cnpj s) /\
      limpar_cnpj s `sublist_of` s /\
      length (limpar_cnpj s) <= length s /\
      (forall c, c ∈ limpar_cnpj s <-> c ∈ s /\ str_isdigit c = true) /\
      (Forall (fun c => (c < 128)%N) s ->
       Forall (fun c => ascii_digit c = true) (limpar_cnpj s))) /\
  limpar_cnpj (str "12.345/678-90") = str "1234567890" /\
  limpar_cnpj [] = [] /\
  limpar_cnpj (str "abc") = [].
Proof.
  split; [|by vm_compute].
  intros s. split; [apply limpar_cnpj_isdigit|].
  split; [apply limpar_cnpj_sublist|].
  split; [apply sublist_length, limpar_cnpj_sublist|].
  split.
  - intros c. unfold limpar_cnpj.
    rewrite !list_elem_of_In, filter_In. tauto.
  - intros Hs.
    assert (Hsub : Forall (fun c => (c < 128)%N) (limpar_cnpj s)).
    { eapply Forall_forall. intros c Hc. eapply Forall_forall in Hs; [exact Hs|].
      eapply sublist_subseteq; [apply limpar_cnpj_sublist|done]. }
    pose proof (limpar_cnpj_isdigit s) as Hd.
    revert Hsub Hd. generalize (limpar_cnpj s). intros l Hl Hd.
    induction Hl as [|c l Hc Hl IH]; [constructor|].
    inversion_clear Hd as [|? ? Hcd Hld]. constructor; auto.
    by rewrite <- str_isdigit_ascii.
Qed.

Lemma limpar_cnpj_spec_witness :
  Forall (fun c => (c < 128)%N) (str "12.345/678-90") /\
  Forall (fun c => ascii_digit c = true) (limpar_cnpj (str "12.345/678-90")).
Proof.
  assert (H : Forall (fun c => (c < 128)%N) (str "12.345/678-90")).
  { apply Forall_forall. intros c Hc. apply list_elem_of_In in Hc.
    vm_compute in Hc. repeat (destruct Hc as [<-|Hc]; [reflexivity|]). done. }
  split; [exact H|].
  exact (proj2 (proj2 (proj2 (proj2
           (proj1 limpar_cnpj_spec (str "12.345/678-90"))))) H).
Defined.

(** C5 as the specification words it fails: the superscript two, U+00B2,
    is a digit for [str.isdigit], so it is kept, and it is not one of
    [0]..[9]. *)
Lemma limpar_cnpj_keeps_superscript_two :
  limpar_cnpj [0xB2%N] = [0xB2%N] /\
  ~ Forall (fun c => ascii_digit c = true) (limpar_cnpj [0xB2%N]).
Proof.
  split; [reflexivity|].
  intros H. inversion H as [|? ? Hc _]. vm_compute in Hc. discriminate.
Qed.

(** C10.  [limpar_cnpj] is idempotent. *)
Theorem limpar_cnpj_idempotent (s : pystr) :
  limpar_cnpj (limpar_cnpj s) = limpar_cnpj s.
Proof. apply limpar_cnpj_fixed, limpar_cnpj_isdigit. Qed.

(** ** The formatter *)

(** Membership of a literal field name in [campos_interesse]. *)
Ltac campo_presente :=
  unfold campos_interesse;
  repeat first [apply list_elem_of_here | apply list_elem_of_further].

Section Formatter.

Lemma dict_comprehension_dict d campos :
  dict_comprehension (PDict d) campos =
  Ok ((fun c => (c, campo_ou_vazio d c)) <$> campos).
Proof.
  induction campos as [|c campos IH]; [done|].
  simpl. rewrite IH. reflexivity.
Qed.

Lemma dict_setitem_linha_de f v :
  dict_setitem (linha_de f) (str "atividade_principal") v =
  linha_de (fun c =>
              if bool_decide (c = str "atividade_principal") then v
              else f c).
Proof. vm_compute. reflexivity. Qed.

Lemma linha_de_keys f : (linha_de f).*1 = campos_interesse.
Proof. reflexivity. Qed.

Lemma dict_lookup_linha_de f c :
  c ∈ campos_interesse -> dict_lookup (linha_de f) c = Some (f c).
Proof.
  unfold campos_interesse, linha_de. rewrite !elem_of_cons, elem_of_nil.
  intros H. repeat (destruct H as [->|H]; [vm_compute; reflexivity|]).
  done.
Qed.

(** The formatter on a mapping, case by case. *)
Lemma formatar_dados_dict d :
  formatar_dados (PDict d) =
  match d !! str "atividade_principal" with
  | Some v =>
      if truthy v then
        primeira ← py_getitem0 v;
        texto ← py_get primeira (str "text") (PStr []);
        Ok (linha_de (fun c =>
              if bool_decide (c = str "atividade_principal") then texto
              else campo_ou_vazio d c))
      else Ok (linha_de (campo_ou_vazio d))
  | None => Ok (linha_de (campo_ou_vazio d))
  end.
Proof.
  unfold formatar_dados. rewrite dict_comprehension_dict.
  fold (linha_de (campo_ou_vazio d)).
  unfold tem_atividade, py_contains, py_getitem.
  destruct (d !! str "atividade_principal") as [v|] eqn:Hv; simpl.
  - destruct (truthy v); simpl; [|done].
    destruct (py_getitem0 v) as [primeira|e]; simpl; [|done].
    destruct (py_get primeira _ _) as [texto|e]; simpl; [|done].
    reflexivity.
  - reflexivity.
Qed.

End Formatter.

(** C6, as the code has it.  The formatter does no I/O.  On a mapping it
    returns a row of the ten fields, in order, exactly when
    [atividade_principal] is absent, falsy, or a list that starts with a
    mapping, and raises otherwise; each field but the activity holds the
    value of the generic lookup.  A mapping without any of the ten fields
    gives ten empty strings.  When [atividade_principal] is a list that
    starts with a mapping, the activity field is the [text] of that
    mapping, the empty string by default: it is the word itself for the
    example of the specification.  When the field is absent the activity
    is the empty string. *)
Theorem formatar_dados_spec :
  (forall v st, (lift (formatar_dados v) st).1 = st) /\
  (forall d,
      atividade_esperada d = true ->
      exists row,
        formatar_dados (PDict d) = Ok row /\
        row.*1 = campos_interesse /\
        forall c, c ∈ campos_interesse -> c <> str "atividade_principal" ->
                  dict_lookup row c = Some (campo_ou_vazio d c)) /\
  (forall d,
      atividade_esperada d = false ->
      exists e, formatar_dados (PDict d) = Raise e) /\
  (forall d,
      (forall c, c ∈ campos_interesse -> d !! c = None) ->
      formatar_dados (PDict d) = Ok (linha_de (fun _ => PStr []))) /\
  (forall d t resto,
      d !! str "atividade_principal" = Some (PList (PDict t :: resto)) ->
      exists row,
        formatar_dados (PDict d) = Ok row /\
        dict_lookup row (str "atividade_principal") =
        Some (default (PStr []) (t !! str "text"))) /\
  (forall d,
      d !! str "atividade_principal" =
      Some (PList [PDict {[ str "text" := PStr comercio ]}]) ->
      exists row,
        formatar_dados (PDict d) = Ok row /\
        dict_lookup row (str "atividade_principal") = Some (PStr comercio)) /\
  (forall d,
      d !! str "atividade_principal" = None ->
      exists row,
        formatar_dados (PDict d) = Ok row /\
        dict_lookup row (str "atividade_principal") = Some (PStr [])).
Proof.
  assert (Hlist : forall d t resto,
      d !! str "atividade_principal" = Some (PList (PDict t :: resto)) ->
      exists row,
        formatar_dados (PDict d) = Ok row /\
        dict_lookup row (str "atividade_principal") =
        Some (default (PStr []) (t !! str "text"))).
  { intros d t resto Hd. rewrite formatar_dados_dict, Hd. simpl.
    eexists; split; [reflexivity|].
    rewrite dict_lookup_linha_de by campo_presente.
    by rewrite bool_decide_eq_true_2. }
  split; [done|]. split; [|split; [|split; [|split; [|split]]]].
  - intros d Hd. unfold atividade_esperada in Hd.
    rewrite formatar_dados_dict.
    assert (Hgen : forall f : pystr -> pyval,
        (forall c, c <> str "atividade_principal" -> f c = campo_ou_vazio d c) ->
        exists row, Ok (linha_de f) = Ok row /\ row.*1 = campos_interesse /\
          forall c, c ∈ campos_interesse -> c <> str "atividade_principal" ->
                    dict_lookup row c = Some (campo_ou_vazio d c)).
    { intros f Hf. eexists; split; [reflexivity|]. split; [apply linha_de_keys|].
      intros c Hc Hne. by rewrite dict_lookup_linha_de, Hf. }
    destruct (d !! str "atividade_principal") as [v|]; [|by apply Hgen].
    destruct (truthy v) eqn:Hv; [|by apply Hgen].
    simpl in Hd. destruct v as [| | | | |[|[] ?]|]; try discriminate Hd.
    simpl. apply Hgen. intros c Hne. by rewrite bool_decide_eq_false_2.
  - intros d Hd. unfold atividade_esperada in Hd.
    rewrite formatar_dados_dict.
    destruct (d !! str "atividade_principal") as [v|]; [|discriminate].
    apply orb_false_elim in Hd as [Hv Hd].
    apply negb_false_iff in Hv. rewrite Hv.
    destruct v as [|b|z|f|[|c s]|[|x l]|m]; try discriminate Hv;
      try (eexists; reflexivity).
    destruct x; try discriminate Hd; eexists; reflexivity.
  - intros d Hd. rewrite formatar_dados_dict.
    rewrite (Hd (str "atividade_principal")) by campo_presente.
    unfold linha_de, campo_ou_vazio, campos_interesse. simpl.
    by rewrite !Hd by campo_presente.
  - exact Hlist.
  - intros d Hd. destruct (Hlist _ _ _ Hd) as (row & Hrow & Hact).
    exists row. split; [done|]. rewrite Hact. reflexivity.
  - intros d Hd. rewrite formatar_dados_dict, Hd.
    eexists; split; [reflexivity|].
    rewrite dict_lookup_linha_de by campo_presente.
    unfold campo_ou_vazio. by rewrite Hd.
Qed.

Lemma formatar_dados_spec_witness :
  let d : gmap pystr pyval :=
    {[ str "atividade_principal" :=
         PList [PDict {[ str "text" := PStr comercio ]}] ]} in
  d !! str "atividade_principal" =
    Some (PList [PDict {[ str "text" := PStr comercio ]}]) /\
  exists row,
    formatar_dados (PDict d) = Ok row /\
    dict_lookup row (str "atividade_principal") = Some (PStr comercio).
Proof.
  intros d.
  assert (H : d !! str "atividade_principal" =
              Some (PList [PDict {[ str "text" := PStr comercio ]}])).
  { reflexivity. }
  split; [exact H|].
  exact (proj1 (proj2 (proj2 (proj2 (proj2 (proj2 formatar_dados_spec))))) d H).
Defined.

(** C6 as the specification words it fails twice.  For
    [atividade_principal = []] the activity field is the empty list that
    the generic lookup found, not the empty string; and a mapping whose
    [atividade_principal] is a non-empty string makes the formatter
    raise. *)
Lemma formatar_dados_not_total_nor_string :
  (exists row,
      formatar_dados (PDict {[ str "atividade_principal" := PList [] ]})
        = Ok row /\
      dict_lookup row (str "atividade_principal") = Some (PList []) /\
      dict_lookup row (str "atividade_principal") <> Some (PStr [])) /\
  formatar_dados (PDict {[ str "atividade_principal" := PStr (str "x") ]})
    = Raise AttributeError.
Proof.
  split; [|reflexivity].
  eexists. split; [reflexivity|]. split; [reflexivity|]. discriminate.
Qed.

(** ** The registry client *)

(** Normalises the state a run of monadic code leaves. *)
Ltac corre :=
  cbn [fst snd saida pedidos disco resultados];
  rewrite <- ?app_assoc; cbn [app].

Section Lookup.

Variable servidor : registro.


Lemma eq_str_true k w : eq_str k w = true <-> w = PStr k.
Proof.
  destruct w as [| | | | s | |]; simpl; try (split; discriminate).
  rewrite bool_decide_eq_true. split; congruence.
Qed.



(** What one call does, by the answer of the registry. *)
Lemma obter_dados_run cnpj st :
  obter_dados_empresa_por_cnpj servidor cnpj st =
  let cnpj' := limpar_cnpj cnpj in
  let com evs :=
    {| pedidos := S (pedidos st);
       saida := saida st ++ EvRequest (caminho cnpj) :: evs;
       disco := disco st; resultados := resultados st |} in
  match servidor (pedidos st) (caminho cnpj) with
  | Falha e => (com [], Raise e)
  | Resposta status c =>
      let visto := EvPrint (MsgProcessando cnpj' status) in
      if negb (status =? 200)%Z then (com [visto; EvClose], Ok PNone)
      else
        match c with
        | Ilegivel e => (com [visto], Raise e)
        | Invalido e => (com [visto; EvClose], Raise e)
        | Documento v =>
            match status_de_erro v with
            | Raise e => (com [visto; EvClose], Raise e)
            | Ok false => (com [visto; EvClose], Ok v)
            | Ok true =>
                match py_get v (str "message")
                        (PStr (str "Sem mensagem de erro")) with
                | Ok m =>
                    (com [visto; EvClose; EvPrint (MsgErro cnpj' m)],
                     Ok PNone)
                | Raise e => (com [visto; EvClose], Raise e)
                end
            end
        end
  end.
Proof.
  unfold obter_dados_empresa_por_cnpj, caminho, request, print, emit, lift,
    ler_e_decodificar, raise, mbind, M_bind, mret, M_ret.
  cbn zeta.
  destruct (servidor _ _) as [e|status c]; [reflexivity|].
  cbn [fst snd].
  destruct (negb (status =? 200)%Z); [by corre|].
  destruct c as [e|e|v].
  - by corre.
  - unfold emit. by corre.
  - unfold emit. corre.
    destruct (status_de_erro v) as [[|]|e]; try (by corre).
    destruct (py_get v _ _); by corre.
Qed.

End Lookup.




(** ** The worksheet *)

Section Worksheet.

Implicit Types (ws : worksheet) (vals : list pyval)
  (linhas : list (list pyval)).

Lemma escrever_cons e ws kv cells :
  escrever e ws (kv :: cells) = escrever e (atribuir e ws kv) cells.
Proof. reflexivity. Qed.

Lemma escrever_app e ws cells1 cells2 :
  escrever e ws (cells1 ++ cells2) = escrever e (escrever e ws cells1) cells2.
Proof. apply foldl_app. Qed.

(** Writing a row changes the cells of that row under its values, and
    no other. *)
Lemma lookup_escrever_linha e vals : forall ws r c0 r' c',
  escrever e ws (celulas_linha r c0 vals) !! (r', c') =
  if decide (r' = r /\ c0 <= c')
  then sobre_celula e (vals !! (c' - c0)) (ws !! (r', c'))
  else ws !! (r', c').
Proof.
  induction vals as [|v vals IH]; intros ws r c0 r' c'.
  - simpl. by case_decide.
  - cbn [celulas_linha]. rewrite escrever_cons, IH. unfold atribuir.
    cbn [fst snd].
    destruct (decide (r' = r /\ c0 <= c')) as [[-> Hc]|Hn].
    + destruct (decide (c' = c0)) as [->|Hne].
      * rewrite decide_False by lia.
        rewrite lookup_insert_eq, Nat.sub_diag. reflexivity.
      * rewrite decide_True by lia.
        replace (c' - c0) with (S (c' - S c0)) by lia.
        rewrite lookup_insert_ne by congruence. reflexivity.
    + rewrite decide_False by lia.
      apply lookup_insert_ne. intros [= -> ->]. lia.
Qed.

(** Writing consecutive rows from row [S base] on: a cell below [base]
    takes the value of the table at that place, if it has one. *)
Lemma lookup_escrever_linhas e linhas : forall ws base r c,
  escrever e ws (celulas_linhas (S base) linhas) !! (r, c) =
  sobre_celula e (celula_de linhas (r - base) c) (ws !! (r, c)).
Proof.
  induction linhas as [|l linhas IH]; intros ws base r c.
  - simpl. by destruct (r - base), c.
  - cbn [celulas_linhas]. rewrite escrever_app, IH, lookup_escrever_linha.
    destruct (decide (r = S base /\ 1 <= c)) as [[-> Hc]|Hn].
    + replace (S base - S base) with 0 by lia.
      replace (S base - base) with 1 by lia.
      destruct c as [|j]; [lia|]. simpl. by rewrite Nat.sub_0_r.
    + destruct (decide (r <= base)) as [Hle|Hgt].
      * replace (r - S base) with 0 by lia.
        replace (r - base) with 0 by lia. reflexivity.
      * destruct c as [|j].
        { by destruct (r - S base), (r - base). }
        assert (S (S base) <= r) as Hr by lia.
        replace (r - base) with (S (S (r - S (S base)))) by lia.
        replace (r - S base) with (S (r - S (S base))) by lia.
        reflexivity.
Qed.

Lemma max_list_with_ge {A} (f : A -> nat) x l :
  x ∈ l -> f x <= max_list_with f l.
Proof. induction 1; simpl; lia. Qed.

Lemma max_list_with_attained {A} (f : A -> nat) l :
  l <> [] -> exists x, x ∈ l /\ max_list_with f l = f x.
Proof.
  induction l as [|y l IH]; [done|]. intros _. simpl.
  destruct l as [|z l].
  - exists y. split; [left|simpl; lia].
  - destruct IH as (x & Hx & Hmax); [done|].
    destruct (Nat.max_spec (f y) (max_list_with f (z :: l))) as [[_ Hm]|[_ Hm]].
    + exists x. split; [by right|]. change (f y `max` max_list_with f (z :: l) = f x).
      lia.
    + exists y. split; [left|]. change (f y `max` max_list_with f (z :: l) = f y).
      lia.
Qed.

Lemma max_row_empty : max_row ∅ = 1.
Proof. reflexivity. Qed.

(** Every cell lies in a row up to [max_row]. *)
Lemma max_row_ge ws r c x : ws !! (r, c) = Some x -> r <= max_row ws.
Proof.
  intros Hv. unfold max_row.
  destruct (Nat.eqb_spec (size ws) 0) as [H0|_].
  - apply map_size_empty_inv in H0. subst. by rewrite lookup_empty in Hv.
  - apply elem_of_map_to_list in Hv.
    apply (max_list_with_ge (fun kv : nat * nat * celula => kv.1.1)) in Hv.
    exact Hv.
Qed.

(** On a sheet with a cell, [max_row] is the last row that has one. *)
Lemma max_row_attained ws :
  ws <> ∅ -> exists c x, ws !! (max_row ws, c) = Some x.
Proof.
  intros Hne. unfold max_row.
  destruct (Nat.eqb_spec (size ws) 0) as [H0|_].
  - by apply map_size_empty_inv in H0.
  - destruct (max_list_with_attained
                (fun kv : nat * nat * celula => kv.1.1) (map_to_list ws))
      as ([[r c] x] & Hin & ->).
    + by rewrite map_to_list_empty_iff.
    + apply elem_of_map_to_list in Hin. simpl. eauto.
Qed.

Lemma max_row_unique ws m c x :
  ws !! (m, c) = Some x ->
  (forall r c' x', ws !! (r, c') = Some x' -> r <= m) ->
  max_row ws = m.
Proof.
  intros Hm Hle. apply Nat.le_antisymm; [|by eapply max_row_ge].
  destruct (max_row_attained ws) as (c' & x' & Hc').
  - intros ->. by rewrite lookup_empty in Hm.
  - by eapply Hle.
Qed.

(** What the file keeps of a cell that was written: the cell, without
    value if the empty string was written. *)
Lemma guardar_celula_posta e o v :
  guardar_celula (posta e o v) =
  Some {| valor := guardado v; estilo := e || from_option estilo false o |}.
Proof. by destruct v as [| | | |[|c s]| |]. Qed.

(** The value the file keeps of a cell. *)
Lemma valor_guardar_celula x :
  guardar_celula x ≫= valor = valor x ≫= guardado.
Proof.
  destruct x as [[v|] s]; [by destruct v as [| | | |[|c t]| |]|by destruct s].
Qed.

Lemma guardado_guardado (o : option pyval) :
  (o ≫= guardado) ≫= guardado = o ≫= guardado.
Proof. destruct o as [v|]; [|done]. by destruct v as [| | | |[|c t]| |]. Qed.


Lemma valor_em_guardar ws p :
  valor_em (omap guardar_celula ws) p = valor_em ws p ≫= guardado.
Proof.
  unfold valor_em. rewrite lookup_omap.
  destruct (ws !! p) as [x|]; [|done]. apply valor_guardar_celula.
Qed.

End Worksheet.

(** ** The appender *)

Section Appender.

Implicit Types (df : DataFrame) (book : workbook) (ws : worksheet).

Lemma sobre_None {A} (o : option A) : sobre o None = o.
Proof. by destruct o. Qed.

Lemma celula_de_row_bound linhas r c v :
  celula_de linhas r c = Some v -> 1 <= r <= length linhas /\ 1 <= c.
Proof.
  destruct r as [|i], c as [|j]; simpl; try discriminate.
  destruct (linhas !! i) as [l|] eqn:Hl; simpl; [|discriminate].
  apply lookup_lt_Some in Hl. lia.
Qed.

Lemma celula_de_app l1 l2 r c :
  celula_de (l1 ++ l2) r c =
  sobre (celula_de l2 (r - length l1) c) (celula_de l1 r c).
Proof.
  destruct (decide (r <= length l1)) as [Hle|Hgt].
  - replace (r - length l1) with 0 by lia. simpl.
    destruct r as [|i], c as [|j]; simpl; try done.
    by rewrite lookup_app_l by lia.
  - destruct r as [|i]; [lia|]. destruct c as [|j].
    { by destruct (S i - length l1). }
    replace (S i - length l1) with (S (i - length l1)) by lia. simpl.
    rewrite lookup_app_r by lia.
    rewrite (lookup_ge_None_2 l1 i) by lia. simpl.
    by rewrite sobre_None.
Qed.

(** The cells of a table after another: those of the first up to its
    last row, those of the second below. *)
Lemma celula_de_app_if l1 l2 r c :
  celula_de (l1 ++ l2) r c =
  if decide (r <= length l1) then celula_de l1 r c
  else celula_de l2 (r - length l1) c.
Proof.
  rewrite celula_de_app. case_decide as Hr.
  - by replace (r - length l1) with 0 by lia.
  - destruct (celula_de l1 r c) as [v|] eqn:Hv; [|apply sobre_None].
    apply celula_de_row_bound in Hv. lia.
Qed.

(** *** Titles *)

Lemma avoid_duplicate_name_sufixo names value :
  exists ds, avoid_duplicate_name names value = value ++ ds.
Proof.
  unfold avoid_duplicate_name.
  destruct (existsb _ names); [|exists []; by rewrite app_nil_r].
  destruct (contagens _ _ _); [exists []; by rewrite app_nil_r|eauto].
Qed.

(** A title that no name equals, whatever the case of the letters, is
    taken as it is. *)
Lemma avoid_duplicate_name_livre names value :
  (forall n, n ∈ names -> lower n <> lower value) ->
  avoid_duplicate_name names value = value.
Proof.
  intros Hn. unfold avoid_duplicate_name.
  destruct (existsb _ names) eqn:He; [|done].
  apply existsb_exists in He as (n & Hin & Heq).
  apply bool_decide_eq_true in Heq. apply list_elem_of_In in Hin.
  by destruct (Hn n).
Qed.

Lemma starts_with_app k s : starts_with k (k ++ s) = true.
Proof.
  induction k as [|a k IH]; [done|]. simpl. by rewrite N.eqb_refl, IH.
Qed.

Lemma elem_of_titulos book n : n ∈ titulos book <-> is_Some (book !! n).
Proof.
  unfold titulos. rewrite list_elem_of_fmap. split.
  - intros ([n' f] & -> & Hin). apply elem_of_map_to_list in Hin. eauto.
  - intros [f Hf]. exists (n, f). split; [done|].
    by apply elem_of_map_to_list.
Qed.

Lemma titulo_simples_valido aba :
  titulo_simples aba = true -> validar_titulo aba = Ok ().
Proof.
  unfold titulo_simples, validar_titulo. intros H.
  repeat (apply andb_prop in H as [H ?]).
  destruct aba as [|c aba]; [done|].
  assert (existsb titulo_invalido (c :: aba) = false) as ->; [|done].
  apply not_true_is_false. intros (x & Hin & Hx)%existsb_exists.
  match goal with
  | Hf : forallb _ _ = true |- _ =>
      rewrite forallb_forall in Hf; specialize (Hf x Hin)
  end.
  rewrite Hx in *. by rewrite andb_false_r in *.
Qed.

(** A free title is not the title of a sheet. *)
Lemma titulo_livre_ausente book aba :
  titulo_livre book aba -> book !! aba = None.
Proof.
  intros [_ Hn]. destruct (book !! aba) as [f|] eqn:Hf; [|done].
  by destruct (Hn aba).
Qed.

(** A free title is the title the created sheet gets. *)
Lemma titulo_livre_aceite book aba :
  titulo_livre book aba ->
  let provisorio := avoid_duplicate_name (titulos book) (str "Sheet") in
  (if bool_decide (aba = provisorio) then aba
   else avoid_duplicate_name (titulos book ++ [provisorio]) aba) = aba.
Proof.
  intros [Hs Hn] provisorio. case_bool_decide; [done|].
  apply avoid_duplicate_name_livre. intros n [Hin|Hin]%elem_of_app.
  - apply Hn. by apply elem_of_titulos.
  - apply list_elem_of_singleton in Hin. subst n.
    destruct (avoid_duplicate_name_sufixo (titulos book) (str "Sheet"))
      as [ds Hds].
    subst provisorio. rewrite Hds. intros Heq.
    unfold titulo_simples in Hs.
    repeat (apply andb_prop in Hs as [Hs ?]).
    assert (starts_with (str "sheet") (lower aba) = true) as Hst.
    { rewrite <- Heq. unfold lower. rewrite fmap_app.
      apply (starts_with_app (str "sheet")). }
    by rewrite Hst in *.
Qed.

(** *** One invocation *)

(** The [try] statement, by the sheet the workbook has under the
    title. *)
Lemma anexar_ou_criar_run df book aba :
  anexar_ou_criar df book aba =
  match book !! aba with
  | None => to_excel df book aba true 0
  | Some (Worksheet ws) =>
      (<[aba := Worksheet (folha_anexada ws (data df))]> book, Ok ())
  | Some Chartsheet => (book, Raise AttributeError)
  end.
Proof.
  unfold anexar_ou_criar, anexar, sondar, book_getitem, folha_max_row.
  destruct (book !! aba) as [[ws|]|] eqn:Hb; cbn [mbind result_bind];
    [|done..].
  unfold to_excel. by rewrite Hb.
Qed.

(** The creation of a sheet under a free title. *)
Lemma to_excel_cria df book aba :
  titulo_livre book aba ->
  to_excel df book aba true 0 =
  (<[aba := Worksheet (folha_criada (PStr <$> columns df) (data df))]> book,
   Ok ()).
Proof.
  intros Hl. unfold to_excel.
  rewrite (titulo_livre_ausente _ _ Hl).
  rewrite (titulo_simples_valido _ (proj1 Hl)).
  by rewrite (titulo_livre_aceite _ _ Hl).
Qed.

(** What one invocation does, by what the file holds. *)
Lemma salvar_run df arq aba st :
  salvar_dados_empresa_excel df arq aba st =
  match disco st !! arq with
  | None =>
      ({| pedidos := pedidos st; saida := saida st ++ [EvExcelWriter arq];
          disco := disco st; resultados := resultados st |}, Raise OSError)
  | Some book =>
      (gravado st arq (guardar (anexar_ou_criar df book aba).1),
       (anexar_ou_criar df book aba).2)
  end.
Proof.
  unfold salvar_dados_empresa_excel, com_ExcelWriter, emit, mbind, M_bind.
  cbn [disco saida pedidos resultados].
  destruct (disco st !! arq) as [book|]; [|reflexivity].
  by destruct (anexar_ou_criar df book aba).
Qed.

Lemma guardar_insert book aba f :
  guardar (<[aba := f]> book) = <[aba := guardar_folha f]> (guardar book).
Proof. apply fmap_insert. Qed.

Lemma lookup_guardar book aba :
  guardar book !! aba = guardar_folha <$> book !! aba.
Proof. apply lookup_fmap. Qed.

(** *** The sheets an invocation leaves *)

(** In memory, after an append: the sheet as before up to its last row,
    the new rows below. *)
Lemma anexada_lookup ws linhas r c :
  folha_anexada ws linhas !! (r, c) =
  if decide (r <= max_row ws) then ws !! (r, c)
  else posta false None <$> celula_de linhas (r - max_row ws) c.
Proof.
  unfold folha_anexada. rewrite lookup_escrever_linhas. case_decide as Hr.
  - by replace (r - max_row ws) with 0 by lia.
  - destruct (ws !! (r, c)) as [x|] eqn:Hx.
    + apply max_row_ge in Hx. lia.
    + by destruct (celula_de linhas (r - max_row ws) c).
Qed.

(** In memory, after a creation: the table itself, header first. *)
Lemma criada_lookup cab linhas r c :
  folha_criada cab linhas !! (r, c) =
  posta (bool_decide (r = 1)) None <$> celula_de (cab :: linhas) r c.
Proof.
  unfold folha_criada.
  rewrite (lookup_escrever_linhas false linhas _ 1), lookup_escrever_linha.
  rewrite lookup_empty.
  destruct r as [|[|i]].
  - rewrite decide_False by lia. by destruct c.
  - destruct c as [|j].
    + by rewrite decide_False by lia.
    + rewrite decide_True by lia. simpl. rewrite Nat.sub_0_r.
      by destruct (cab !! j).
  - rewrite decide_False by lia. cbn [sobre_celula].
    replace (S (S i) - 1) with (S i) by lia.
    destruct c as [|j]; [done|]. simpl.
    by destruct (linhas !! i ≫= _).
Qed.

(** In the file, after an append. *)
Lemma anexada_guardada ws linhas r c :
  omap guardar_celula (folha_anexada ws linhas) !! (r, c) =
  if decide (r <= max_row ws) then ws !! (r, c) ≫= guardar_celula
  else (fun v => {| valor := guardado v; estilo := false |})
         <$> celula_de linhas (r - max_row ws) c.
Proof.
  rewrite lookup_omap, anexada_lookup. case_decide; [done|].
  destruct (celula_de linhas (r - max_row ws) c) as [v|]; [|done].
  apply guardar_celula_posta.
Qed.


(** The values in the file, after an append and after a creation. *)
Lemma anexada_valor ws linhas r c :
  valor_em (omap guardar_celula (folha_anexada ws linhas)) (r, c) =
  if decide (r <= max_row ws) then valor_em ws (r, c) ≫= guardado
  else celula_de linhas (r - max_row ws) c ≫= guardado.
Proof.
  rewrite valor_em_guardar. unfold valor_em. rewrite anexada_lookup.
  case_decide; [done|].
  by destruct (celula_de linhas (r - max_row ws) c).
Qed.

Lemma criada_valor cab linhas r c :
  valor_em (omap guardar_celula (folha_criada cab linhas)) (r, c) =
  celula_de (cab :: linhas) r c ≫= guardado.
Proof.
  rewrite valor_em_guardar. unfold valor_em. rewrite criada_lookup.
  by destruct (celula_de (cab :: linhas) r c).
Qed.

(** The data frame of a non-empty batch of formatted rows. *)
Lemma pd_DataFrame_formatada B :
  B <> [] -> Forall linha_formatada B ->
  columns (pd_DataFrame B) = campos_interesse /\
  data (pd_DataFrame B) = valores B.
Proof.
  intros Hne HB. split; [|reflexivity].
  destruct B as [|r B]; [done|]. by inversion HB.
Qed.

Lemma linha_de_texto_formatada B :
  Forall linha_de_texto B -> Forall linha_formatada B.
Proof. intros H. eapply Forall_impl; [exact H|]. by intros r [? _]. Qed.

Lemma valores_length B : length (valores B) = length B.
Proof. apply length_fmap. Qed.

(** The last row of a table of formatted rows has a first cell. *)
Lemma celula_de_ultima (cab : list pyval) B :
  cab <> [] -> Forall linha_formatada B ->
  exists v, celula_de (cab :: valores B) (S (length B)) 1 = Some v.
Proof.
  intros Hcab HB. simpl.
  destruct (lookup_lt_is_Some_2 (cab :: valores B) (length B)) as [l Hl].
  { simpl. rewrite valores_length. lia. }
  rewrite Hl. simpl.
  assert (l <> []) as Hne.
  { destruct (length B) as [|n] eqn:Hn; simpl in Hl; [congruence|].
    unfold valores in Hl. rewrite list_lookup_fmap in Hl.
    destruct (B !! n) as [row|] eqn:Hrow; [|discriminate].
    simplify_eq/=. eapply Forall_lookup_1 in HB; [|done].
    unfold linha_formatada in HB. intros Hnil.
    apply fmap_nil_inv in Hnil. subst row. discriminate HB. }
  destruct l; [done|]. eauto.
Qed.

(** The last row of a non-empty batch of formatted rows has a first
    cell. *)
Lemma celula_de_ultima_lote B :
  B <> [] -> Forall linha_formatada B ->
  exists v, celula_de (valores B) (length B) 1 = Some v.
Proof.
  destruct B as [|b B]; [done|]. intros _ HB.
  inversion_clear HB as [|? ? Hb HB'].
  apply (celula_de_ultima (b.*2) B); [|done].
  intros Hnil. apply fmap_nil_inv in Hnil. subst b. discriminate Hb.
Qed.

(** In the file, an append of a non-empty batch of formatted rows moves
    the last row down by their number: the cells of the new rows are
    there, with or without a value. *)
Lemma max_row_anexada ws B :
  B <> [] -> Forall linha_formatada B ->
  max_row (omap guardar_celula (folha_anexada ws (valores B))) =
  max_row ws + length B.
Proof.
  intros Hne HB. destruct (celula_de_ultima_lote B Hne HB) as [v Hv].
  apply (max_row_unique _ _ 1 {| valor := guardado v; estilo := false |}).
  - rewrite anexada_guardada, decide_False by (destruct B; simpl; [done|lia]).
    replace (max_row ws + length B - max_row ws) with (length B) by lia.
    by rewrite Hv.
  - intros i j x. rewrite anexada_guardada. case_decide as Hi; [lia|].
    destruct (celula_de (valores B) (i - max_row ws) j) as [w|] eqn:Hw;
      [|discriminate].
    apply celula_de_row_bound in Hw as [Hw _].
    rewrite valores_length in Hw. lia.
Qed.


(** One invocation on a worksheet that is there. *)
Lemma salvar_anexa B arq aba st book ws :
  disco st !! arq = Some book -> book !! aba = Some (Worksheet ws) ->
  salvar_dados_empresa_excel (pd_DataFrame B) arq aba st =
  (gravado st arq
     (<[aba := Worksheet (omap guardar_celula (folha_anexada ws (valores B)))]>
        (guardar book)), Ok ()).
Proof.
  intros Hbook Hws. rewrite salvar_run, Hbook, anexar_ou_criar_run, Hws.
  cbn [fst snd]. by rewrite guardar_insert.
Qed.

(** One invocation with a non-empty batch of formatted rows under a
    free title. *)
Lemma salvar_cria B arq aba st book :
  B <> [] -> Forall linha_formatada B ->
  disco st !! arq = Some book -> titulo_livre book aba ->
  salvar_dados_empresa_excel (pd_DataFrame B) arq aba st =
  (gravado st arq
     (<[aba := Worksheet
                 (omap guardar_celula
                    (folha_criada (PStr <$> campos_interesse) (valores B)))]>
        (guardar book)), Ok ()).
Proof.
  intros Hne HB Hbook Hl.
  rewrite salvar_run, Hbook, anexar_ou_criar_run.
  rewrite (titulo_livre_ausente _ _ Hl), (to_excel_cria _ _ _ Hl).
  destruct (pd_DataFrame_formatada B Hne HB) as [-> ->].
  cbn [fst snd]. by rewrite guardar_insert.
Qed.

End Appender.







(** C3, as the code has it.  A file that does not open makes the
    invocation raise, and the disk stays as it was.  On a file that
    opens, the probe of the sheet fails with [KeyError] exactly when no
    sheet has the title, and then the outcome of the invocation is the
    outcome of the creation of the sheet with a header, what it leaves
    being saved: under a free title, with a non-empty batch of formatted
    rows of text, nothing is raised and the sheet is there with the ten
    field names in its first row.  Any other failure of the probe is
    raised to the caller, and the workbook is saved with nothing
    written. *)
Theorem salvar_dados_falhas (df : DataFrame) (arq aba : pystr) (st : estado) :
  let r := salvar_dados_empresa_excel df arq aba st in
  (disco st !! arq = None -> r.2 = Raise OSError /\ disco r.1 = disco st) /\
  (forall book,
      disco st !! arq = Some book ->
      (sondar book aba = Raise KeyError <-> book !! aba = None) /\
      (sondar book aba = Raise KeyError ->
       r.2 = (to_excel df book aba true 0).2 /\
       disco r.1 =
         <[arq := guardar (to_excel df book aba true 0).1]> (disco st)) /\
      (forall B,
          sondar book aba = Raise KeyError -> titulo_livre book aba ->
          df = pd_DataFrame B -> B <> [] -> Forall linha_de_texto B ->
          cabe (S (length B)) ->
          r.2 = Ok () /\
          exists ws',
            disco r.1 =
              <[arq := <[aba := Worksheet ws']> (guardar book)]> (disco st) /\
            forall j,
              valor_em ws' (1, S j) = PStr <$> (campos_interesse !! j)) /\
      (forall e,
          sondar book aba = Raise e -> e <> KeyError ->
          r.2 = Raise e /\ disco r.1 = <[arq := guardar book]> (disco st))).
Proof.
  intros r. split.
  - intros Hno. subst r. by rewrite salvar_run, Hno.
  - intros book Hbook.
    assert (Hk : sondar book aba = Raise KeyError <-> book !! aba = None).
    { unfold sondar, book_getitem.
      destruct (book !! aba) as [[ws|]|]; cbn [mbind result_bind folha_max_row];
        split; done. }
    split; [exact Hk|]. split; [|split].
    + intros Hs%Hk. subst r.
      by rewrite salvar_run, Hbook, anexar_ou_criar_run, Hs.
    + intros B _ Hl -> Hne HB _. subst r.
      rewrite (salvar_cria B arq aba st book Hne
                 (linha_de_texto_formatada B HB) Hbook Hl).
      split; [done|]. eexists. split; [reflexivity|].
      intros j. rewrite criada_valor. simpl.
      do 10 (destruct j as [|j]; [reflexivity|]). reflexivity.
    + intros e He Hne. subst r.
      rewrite salvar_run, Hbook, anexar_ou_criar_run.
      unfold sondar, book_getitem in He.
      destruct (book !! aba) as [[ws|]|];
        cbn [mbind result_bind folha_max_row] in He; try discriminate.
      * by injection He as <-.
      * by injection He as <-.
Qed.

Lemma salvar_dados_falhas_witness :
  (disco estado_grafico !! caminho_planilha = Some livro_grafico /\
   sondar livro_grafico (str "Dados") = Raise AttributeError /\
   AttributeError <> KeyError) /\
  (salvar_dados_empresa_excel (pd_DataFrame [linha_exemplo])
     caminho_planilha (str "Dados") estado_grafico).2 = Raise AttributeError.
Proof.
  assert (H1 : disco estado_grafico !! caminho_planilha = Some livro_grafico).
  { reflexivity. }
  assert (H2 : sondar livro_grafico (str "Dados") = Raise AttributeError).
  { reflexivity. }
  assert (H3 : AttributeError <> KeyError) by discriminate.
  split; [exact (conj H1 (conj H2 H3))|].
  exact (proj1 (proj2 (proj2 (proj2 (proj2
           (salvar_dados_falhas (pd_DataFrame [linha_exemplo])
              caminho_planilha (str "Dados") estado_grafico) _ H1)))
           _ H2 H3)).
Defined.

(** C3 as the specification words it fails: when the title belongs to a
    chart sheet, reading [max_row] raises [AttributeError] during the
    probe; no handler takes it, so it reaches the caller and no sheet is
    written. *)
Lemma salvar_dados_rethrows :
  let r := salvar_dados_empresa_excel (pd_DataFrame [linha_exemplo])
             caminho_planilha (str "Dados") estado_grafico in
  sondar livro_grafico (str "Dados") = Raise AttributeError /\
  r.2 = Raise AttributeError /\
  r.2 <> Ok () /\
  disco r.1 !! caminho_planilha = Some livro_grafico.
Proof.
  split; [reflexivity|]. split; [reflexivity|]. split; [discriminate|].
  vm_compute. reflexivity.
Qed.

(** ** The driver *)

Section Driver.

Variable servidor : registro.

(** A lookup makes one request, leaves the disk and the batch alone,
    never invokes the appender, and its result depends only on the
    number of requests made before. *)
Lemma obter_dados_frame cnpj st :
  let r := obter_dados_empresa_por_cnpj servidor cnpj st in
  pedidos r.1 = S (pedidos st) /\
  disco r.1 = disco st /\
  resultados r.1 = resultados st /\
  r.2 = registro_de servidor (pedidos st) cnpj /\
  exists evs, saida r.1 = saida st ++ evs /\ Forall sem_ExcelWriter evs.
Proof.
  unfold registro_de. rewrite !obter_dados_run.
  cbn [pedidos saida disco resultados].
  destruct (servidor (pedidos st) (caminho cnpj)) as [e|status c].
  { repeat split; eexists; split; [reflexivity|]. repeat constructor. }
  destruct (negb (status =? 200)%Z).
  { repeat split; eexists; split; [reflexivity|]. repeat constructor. }
  destruct c as [e|e|v];
    try (repeat split; eexists; (split; [reflexivity|]); by repeat constructor).
  destruct (status_de_erro v) as [[|]|e];
    try (repeat split; eexists; (split; [reflexivity|]); by repeat constructor).
  destruct (py_get v _ _);
    repeat split; eexists; (split; [reflexivity|]); by repeat constructor.
Qed.

(** One turn of the loop, by what the lookup returns. *)
Lemma passo_run cnpj st :
  passo servidor cnpj st =
  let st0 := {| pedidos := pedidos st;
                saida := saida st ++ [EvPrint (MsgLendo cnpj)];
                disco := disco st; resultados := resultados st |} in
  let r := obter_dados_empresa_por_cnpj servidor cnpj st0 in
  match r.2 with
  | Raise e => (r.1, Raise e)
  | Ok v =>
      if truthy v then
        match formatar_dados v with
        | Ok row =>
            ({| pedidos := pedidos r.1; saida := saida r.1;
                disco := disco r.1;
                resultados := resultados r.1 ++ [row] |}, Ok ())
        | Raise e => (r.1, Raise e)
        end
      else (r.1, Ok ())
  end.
Proof.
  unfold passo, print, emit, lift, resultados_append, mbind, M_bind,
    mret, M_ret.
  cbn zeta.
  destruct (obter_dados_empresa_por_cnpj _ _ _) as [st1 [v|e]];
    cbn [fst snd]; [|done].
  destruct (truthy v); [|done].
  by destruct (formatar_dados v).
Qed.

End Driver.

Section Loop.

Variable servidor : registro.

(** One turn: one request, the disk untouched, no appender, and one
    row more exactly when the identifier yielded a record that was
    formatted. *)
Lemma passo_spec cnpj st :
  let r := passo servidor cnpj st in
  pedidos r.1 = S (pedidos st) /\
  disco r.1 = disco st /\
  (exists evs, saida r.1 = saida st ++ evs /\ Forall sem_ExcelWriter evs) /\
  match r.2 with
  | Ok _ =>
      if rende servidor (pedidos st, cnpj)
      then exists row, resultados r.1 = resultados st ++ [row] /\
                       linha_do_cnpj servidor (pedidos st, cnpj) row
      else resultados r.1 = resultados st
  | Raise _ => resultados r.1 = resultados st
  end.
Proof.
  rewrite passo_run. cbn zeta.
  set (st0 := {| pedidos := pedidos st;
                 saida := saida st ++ [EvPrint (MsgLendo cnpj)];
                 disco := disco st; resultados := resultados st |}).
  destruct (obter_dados_frame servidor cnpj st0)
    as (Hp & Hd & Hr & Hres & evs & Hs & Hevs).
  cbn [pedidos disco resultados saida st0] in Hp, Hd, Hr, Hres, Hs.
  assert (Hsaida : exists evs',
    saida (obter_dados_empresa_por_cnpj servidor cnpj st0).1 =
    saida st ++ evs' /\ Forall sem_ExcelWriter evs').
  { exists (EvPrint (MsgLendo cnpj) :: evs). rewrite Hs, <- app_assoc.
    split; [done|]. by constructor. }
  unfold rende, linha_do_cnpj. cbn [fst snd]. rewrite <- Hres.
  destruct ((obter_dados_empresa_por_cnpj servidor cnpj st0).2) as [v|e];
    [|done].
  destruct (truthy v) eqn:Hv; [|done].
  destruct (formatar_dados v) as [row|e] eqn:Hrow; cbn [fst snd]; [|done].
  cbn [pedidos disco resultados saida].
  repeat split; try done. exists row. rewrite Hr. eauto.
Qed.


Lemma laco_cons cnpj resto st :
  laco servidor (cnpj :: resto) st =
  match passo servidor cnpj st with
  | (st', Ok _) => laco servidor resto st'
  | (st', Raise e) => (st', Raise e)
  end.
Proof. reflexivity. Qed.

(** The loop: the rows added are, in order, those of the identifiers
    that yielded a record, among the [k] first identifiers, where [k]
    is their whole number unless an exception ended the loop. *)
Lemma laco_spec cnpjs : forall st,
  let r := laco servidor cnpjs st in
  disco r.1 = disco st /\
  (exists evs, saida r.1 = saida st ++ evs /\ Forall sem_ExcelWriter evs) /\
  exists k novas,
    k <= length cnpjs /\
    resultados r.1 = resultados st ++ novas /\
    Forall2 (linha_do_cnpj servidor)
      (List.filter (rende servidor) (take k (numerar (pedidos st) cnpjs)))
      novas /\
    (r.2 = Ok () -> k = length cnpjs).
Proof.
  induction cnpjs as [|cnpj resto IH]; intros st.
  - cbn. split; [done|]. split.
    + exists []. by rewrite app_nil_r.
    + exists 0, []. rewrite app_nil_r. by repeat split; auto.
  - cbn zeta. rewrite laco_cons.
    destruct (passo_spec cnpj st) as (Hp & Hd & (evs & Hs & Hevs) & Hres).
    destruct (passo servidor cnpj st) as [st1 [[]|e]]; cbn [fst snd] in *.
    + destruct (IH st1) as (Hd' & (evs' & Hs' & Hevs') & k & novas & Hk & Hr & HF & Hok).
      split; [congruence|]. split.
      { exists (evs ++ evs'). rewrite Hs', Hs, app_assoc.
        split; [done|]. by apply Forall_app. }
      rewrite Hp in HF.
      destruct (rende servidor (pedidos st, cnpj)) eqn:Hrende.
      * destruct Hres as (row & Hrow & Hlin).
        exists (S k), (row :: novas). split; [simpl; lia|].
        split; [by rewrite Hr, Hrow, <- app_assoc|].
        split; [|intros H; simpl; f_equal; auto].
        cbn [numerar take List.filter]. rewrite Hrende. by constructor.
      * exists (S k), novas. split; [simpl; lia|].
        split; [by rewrite Hr, Hres|].
        split; [|intros H; simpl; f_equal; auto].
        cbn [numerar take List.filter]. by rewrite Hrende.
    + split; [done|]. split; [eauto|].
      exists 0, []. rewrite app_nil_r.
      repeat split; [lia|done|constructor|discriminate].
Qed.

End Loop.

Section Principal.

Variable servidor : registro.

(** The run, by how the loop ends. *)
Lemma principal_run coluna st :
  principal servidor coluna st =
  let l := laco servidor (dropna coluna) (estado_inicial st) in
  match l.2 with
  | Raise e => (l.1, Raise e)
  | Ok _ =>
      match resultados l.1 with
      | [] => print MsgSalvos l.1
      | _ :: _ =>
          let s := salvar_dados_empresa_excel
                     (pd_DataFrame (resultados l.1)) caminho_planilha
                     (str "Dados") l.1 in
          match s.2 with
          | Ok _ => print MsgSalvos s.1
          | Raise e => (s.1, Raise e)
          end
      end
  end.
Proof.
  unfold principal, resultados_init, resultados_get, mbind, M_bind,
    mret, M_ret.
  fold (estado_inicial st). cbn zeta.
  destruct (laco servidor (dropna coluna) (estado_inicial st))
    as [st1 [[]|e]]; cbn [fst snd]; [|done].
  destruct (resultados st1) as [|row rs]; [done|].
  by destruct (salvar_dados_empresa_excel _ _ _ st1) as [st2 [[]|e]].
Qed.





End Principal.



(** The scenario itself: the blank is skipped, the first identifier
    gives the one row of the batch, and the sheet [Dados] is created with
    the header and that row, whose missing identifier is a cell without
    value. *)
Example cenario_completo :
  let r := principal servidor_exemplo coluna_exemplo estado_exemplo in
  r.2 = Ok () /\
  length (resultados r.1) = 1 /\
  exists ws,
    disco r.1 !! caminho_planilha ≫= (fun b : workbook => b !! str "Dados")
      = Some (Worksheet ws) /\
    max_row ws = 2 /\
    valor_em ws (1, 2) = Some (PStr (str "nome")) /\
    ws !! (2, 1) = Some {| valor := None; estilo := false |} /\
    valor_em ws (2, 2) = Some (PStr (str "ACME")) /\
    valor_em ws (2, 10) = Some (PStr comercio).
Proof.
  split; [reflexivity|]. split; [reflexivity|].
  eexists. split; [vm_compute; reflexivity|]. by vm_compute.
Qed.

Lemma salvar_saida df arq aba st :
  saida (salvar_dados_empresa_excel df arq aba st).1 =
  saida st ++ [EvExcelWriter arq].
Proof. rewrite salvar_run. by destruct (disco st !! arq). Qed.

(** C8.  When the batch is empty at the end of the loop, the run leaves
    the disk as it was and none of its events is an invocation of the
    appender.  When the loop ends normally with a batch that is not
    empty, the appender is invoked, on the file of the run. *)
Theorem principal_lote_vazio (servidor : registro)
    (coluna : list (option pystr)) (st : estado) :
  let l := laco servidor (dropna coluna) (estado_inicial st) in
  let r := principal servidor coluna st in
  (resultados l.1 = [] ->
   disco r.1 = disco st /\
   exists evs, saida r.1 = saida st ++ evs /\ Forall sem_ExcelWriter evs) /\
  (l.2 = Ok () -> resultados l.1 <> [] ->
   exists evs,
     saida r.1 = saida st ++ evs /\ EvExcelWriter caminho_planilha ∈ evs).
Proof.
  intros l r. subst r. rewrite principal_run. cbn zeta. fold l.
  destruct (laco_spec servidor (dropna coluna) (estado_inicial st))
    as (Hd & (evs & Hs & Hevs) & _).
  fold l in Hd, Hs. cbn [estado_inicial disco saida] in Hd, Hs.
  split.
  - intros Hvazio. rewrite Hvazio.
    destruct (l.2) as [[]|e]; cbn [print emit fst snd disco saida].
    + split; [done|]. exists (evs ++ [EvPrint MsgSalvos]).
      rewrite Hs, app_assoc. split; [done|].
      apply Forall_app. split; [done|]. by repeat constructor.
    + split; [done|]. eauto.
  - intros -> Hne. destruct (resultados l.1) as [|row rs] eqn:Hrs; [done|].
    pose proof (salvar_saida (pd_DataFrame (row :: rs)) caminho_planilha
                  (str "Dados") l.1) as Hsv.
    destruct (salvar_dados_empresa_excel _ _ _ l.1) as [st2 [[]|e]];
      cbn [print emit fst snd saida] in *.
    + exists (evs ++ [EvExcelWriter caminho_planilha; EvPrint MsgSalvos]).
      rewrite Hsv, Hs, <- !app_assoc. split; [done|]. set_solver.
    + exists (evs ++ [EvExcelWriter caminho_planilha]).
      rewrite Hsv, Hs, <- !app_assoc. split; [done|]. set_solver.
Qed.

Lemma principal_lote_vazio_witness :
  resultados
    (laco servidor_404 (dropna coluna_exemplo)
       (estado_inicial estado_exemplo)).1 = [] /\
  disco (principal servidor_404 coluna_exemplo estado_exemplo).1 =
  disco estado_exemplo.
Proof.
  assert (H : resultados
                (laco servidor_404 (dropna coluna_exemplo)
                   (estado_inicial estado_exemplo)).1 = []).
  { reflexivity. }
  split; [exact H|].
  exact (proj1 (proj1
           (principal_lote_vazio servidor_404 coluna_exemplo estado_exemplo)
           H)).
Defined.

(** C9.  A turn of the loop whose lookup returns a falsy value adds no
    row and raises nothing, whether the value is the [None] of a failed
    lookup or a falsy document taken from a 200 response, such as the
    empty mapping: that document is returned by the lookup, its row of
    ten empty strings is never made, and the turn ends as the turn of a
    response that is not 200 does. *)
Theorem passo_registro_falsy (servidor : registro) (cnpj : pystr)
    (st : estado) :
  let r := passo servidor cnpj st in
  let a := servidor (pedidos st) (caminho cnpj) in
  (forall v,
      registro_de servidor (pedidos st) cnpj = Ok v -> truthy v = false ->
      r.2 = Ok () /\ resultados r.1 = resultados st /\
      disco r.1 = disco st) /\
  (forall v,
      a = Resposta 200 (Documento v) -> truthy v = false ->
      status_de_erro v = Ok false ->
      registro_de servidor (pedidos st) cnpj = Ok v /\
      r.2 = Ok () /\ resultados r.1 = resultados st) /\
  (a = Resposta 200 (Documento (PDict ∅)) ->
   registro_de servidor (pedidos st) cnpj = Ok (PDict ∅) /\
   formatar_dados (PDict ∅) = Ok (linha_de (fun _ => PStr [])) /\
   r.2 = Ok () /\ resultados r.1 = resultados st) /\
  (forall status c,
      a = Resposta status c -> status <> 200%Z ->
      registro_de servidor (pedidos st) cnpj = Ok PNone /\
      r.2 = Ok () /\ resultados r.1 = resultados st).
Proof.
  intros r a.
  assert (Hfalsy : forall v,
      registro_de servidor (pedidos st) cnpj = Ok v -> truthy v = false ->
      r.2 = Ok () /\ resultados r.1 = resultados st /\ disco r.1 = disco st).
  { intros v Hv Hf. subst r. rewrite passo_run. cbn zeta.
    set (st0 := {| pedidos := pedidos st;
                   saida := saida st ++ [EvPrint (MsgLendo cnpj)];
                   disco := disco st; resultados := resultados st |}).
    destruct (obter_dados_frame servidor cnpj st0) as (_ & Hd & Hr & Hres & _).
    cbn [pedidos st0] in Hres. rewrite Hv in Hres. rewrite Hres, Hf.
    cbn [fst snd]. by rewrite Hd, Hr. }
  assert (Hdoc : forall v,
      a = Resposta 200 (Documento v) -> status_de_erro v = Ok false ->
      registro_de servidor (pedidos st) cnpj = Ok v).
  { intros v Ha Hs. unfold registro_de. rewrite obter_dados_run.
    cbn [pedidos]. fold a. rewrite Ha. cbn. by rewrite Hs. }
  split; [exact Hfalsy|]. split; [|split].
  - intros v Ha Hf Hs. pose proof (Hdoc v Ha Hs) as Hv.
    destruct (Hfalsy v Hv Hf) as (? & ? & _). done.
  - intros Ha. pose proof (Hdoc (PDict ∅) Ha eq_refl) as Hv.
    destruct (Hfalsy (PDict ∅) Hv eq_refl) as (? & ? & _).
    repeat split; try done.
  - intros status c Ha Hst.
    assert (registro_de servidor (pedidos st) cnpj = Ok PNone) as Hv.
    { unfold registro_de. rewrite obter_dados_run. cbn [pedidos]. fold a.
      rewrite Ha. cbn zeta.
      destruct (Z.eqb_spec status 200); [done|reflexivity]. }
    destruct (Hfalsy PNone Hv eq_refl) as (? & ? & _). done.
Qed.

Lemma passo_registro_falsy_witness :
  servidor_vazio (pedidos estado_exemplo) (caminho (str "11222333000181")) =
    Resposta 200 (Documento (PDict ∅)) /\
  (passo servidor_vazio (str "11222333000181") estado_exemplo).2 = Ok () /\
  resultados (passo servidor_vazio (str "11222333000181") estado_exemplo).1 =
    resultados estado_exemplo.
Proof.
  assert (H : servidor_vazio (pedidos estado_exemplo)
                (caminho (str "11222333000181")) =
              Resposta 200 (Documento (PDict ∅))) by reflexivity.
  split; [exact H|].
  exact (proj2 (proj2 (proj1 (proj2 (proj2
           (passo_registro_falsy servidor_vazio (str "11222333000181")
              estado_exemplo))) H))).
Defined.


(** * Further properties of the code *)

(** ** The normalizer and the request *)

Lemma limpar_cnpj_app_eq a b :
  limpar_cnpj (a ++ b) = limpar_cnpj a ++ limpar_cnpj b.
Proof.
  induction a as [|c a IH]; [done|].
  cbn [app]. rewrite !limpar_cnpj_cons, IH. by destruct (str_isdigit c).
Qed.

Lemma limpar_cnpj_nil_iff s :
  limpar_cnpj s = [] <-> Forall (fun c => str_isdigit c = false) s.
Proof.
  induction s as [|c s IH]; [by split; [constructor|]|].
  rewrite limpar_cnpj_cons. destruct (str_isdigit c) eqn:Hc.
  - split; [discriminate|]. intros H. inversion H; congruence.
  - rewrite IH. split; [by constructor|]. by inversion 1.
Qed.

(** X1.  Punctuation may stand anywhere: cleaning a concatenation is
    concatenating the cleaned parts; the result is the input itself
    exactly when the input holds only digits, and is empty exactly when
    the input holds no digit. *)
Theorem limpar_cnpj_compoe :
  (forall a b, limpar_cnpj (a ++ b) = limpar_cnpj a ++ limpar_cnpj b) /\
  (forall s, limpar_cnpj s = s <->
             Forall (fun c => str_isdigit c = true) s) /\
  (forall s, limpar_cnpj s = [] <->
             Forall (fun c => str_isdigit c = false) s).
Proof.
  split; [apply limpar_cnpj_app_eq|]. split; [|apply limpar_cnpj_nil_iff].
  intros s. split; [|apply limpar_cnpj_fixed].
  intros <-. apply limpar_cnpj_isdigit.
Qed.

(** X2.  The lookup depends on the digits of the identifier only: two
    identifiers with the same digits make the same request, get the same
    result and leave the same state. *)
Theorem obter_dados_mesmos_digitos (servidor : registro) (a b : pystr)
    (st : estado) :
  (limpar_cnpj a = limpar_cnpj b ->
   obter_dados_empresa_por_cnpj servidor a st =
   obter_dados_empresa_por_cnpj servidor b st) /\
  obter_dados_empresa_por_cnpj servidor (limpar_cnpj a) st =
  obter_dados_empresa_por_cnpj servidor a st.
Proof.
  split.
  - intros Hab. unfold obter_dados_empresa_por_cnpj. by rewrite Hab.
  - unfold obter_dados_empresa_por_cnpj.
    by rewrite (limpar_cnpj_fixed _ (limpar_cnpj_isdigit a)).
Qed.

Lemma obter_dados_mesmos_digitos_witness :
  limpar_cnpj (str "11.222.333/0001-81") = limpar_cnpj (str "11222333000181")
  /\
  obter_dados_empresa_por_cnpj servidor_exemplo (str "11.222.333/0001-81")
    estado_exemplo =
  obter_dados_empresa_por_cnpj servidor_exemplo (str "11222333000181")
    estado_exemplo.
Proof.
  assert (H : limpar_cnpj (str "11.222.333/0001-81") =
              limpar_cnpj (str "11222333000181")) by reflexivity.
  split; [exact H|].
  exact (proj1
           (obter_dados_mesmos_digitos servidor_exemplo _ _ estado_exemplo) H).
Defined.

(** ** The connection *)

(** The events of one lookup: the request, then only events of the
    lookup itself. *)
Lemma obter_dados_eventos servidor cnpj st :
  let r := obter_dados_empresa_por_cnpj servidor cnpj st in
  exists evs,
    saida r.1 = saida st ++ EvRequest (caminho cnpj) :: evs /\
    Forall evento_da_consulta evs /\
    (fechos evs = 0 <->
     (exists e, servidor (pedidos st) (caminho cnpj) = Falha e) \/
     (exists e, servidor (pedidos st) (caminho cnpj)
                = Resposta 200 (Ilegivel e))) /\
    (fechos evs <> 0 -> fechos evs = 1).
Proof.
  cbn zeta. rewrite obter_dados_run. cbn zeta.
  destruct (servidor (pedidos st) (caminho cnpj)) as [e|status c].
  { eexists. split; [reflexivity|]. split; [constructor|].
    split; [|done]. split; [eauto|done]. }
  destruct (Z.eqb_spec status 200) as [->|Hst]; cbn [negb].
  2:{ eexists. split; [reflexivity|]. split; [by repeat constructor|].
      split; [|done]. split; [done|].
      intros [[e [=]]|[e [= ? _]]]. done. }
  destruct c as [e|e|v].
  - eexists. split; [reflexivity|]. split; [by repeat constructor|].
    split; [|done]. split; [eauto|done].
  - eexists. split; [reflexivity|]. split; [by repeat constructor|].
    split; [|done]. split; [done|]. by intros [[? [=]]|[? [=]]].
  - destruct (status_de_erro v) as [[|]|e].
    + destruct (py_get v _ _).
      * eexists. split; [reflexivity|]. split; [by repeat constructor|].
        split; [|done]. split; [done|]. by intros [[? [=]]|[? [=]]].
      * eexists. split; [reflexivity|]. split; [by repeat constructor|].
        split; [|done]. split; [done|]. by intros [[? [=]]|[? [=]]].
    + eexists. split; [reflexivity|]. split; [by repeat constructor|].
      split; [|done]. split; [done|]. by intros [[? [=]]|[? [=]]].
    + eexists. split; [reflexivity|]. split; [by repeat constructor|].
      split; [|done]. split; [done|]. by intros [[? [=]]|[? [=]]].
Qed.

Lemma pedidos_feitos_consulta evs :
  Forall evento_da_consulta evs -> pedidos_feitos evs = [] /\ lidos evs = [].
Proof.
  induction 1 as [|ev evs Hev _ [IH1 IH2]]; [done|].
  unfold pedidos_feitos, lidos in *. cbn [omap list_omap].
  destruct ev as [| |[]|]; try done.
Qed.

(** X3.  One call makes one request and no more, to the path of the
    cleaned identifier; it closes the connection at most once, and leaves
    it open exactly when the request failed or the body of a 200 response
    could not be read.  It touches neither the disk nor the batch. *)
Theorem obter_dados_conexao (servidor : registro) (cnpj : pystr)
    (st : estado) :
  let r := obter_dados_empresa_por_cnpj servidor cnpj st in
  let a := servidor (pedidos st) (caminho cnpj) in
  pedidos r.1 = S (pedidos st) /\
  disco r.1 = disco st /\
  resultados r.1 = resultados st /\
  exists evs,
    saida r.1 = saida st ++ evs /\
    pedidos_feitos evs = [caminho cnpj] /\
    fechos evs <= 1 /\
    (fechos evs = 0 <->
     (exists e, a = Falha e) \/ (exists e, a = Resposta 200 (Ilegivel e))).
Proof.
  intros r a.
  destruct (obter_dados_frame servidor cnpj st) as (Hp & Hd & Hr & _).
  destruct (obter_dados_eventos servidor cnpj st)
    as (evs & Hs & Hevs & Hzero & Hone).
  split; [done|]. split; [done|]. split; [done|].
  exists (EvRequest (caminho cnpj) :: evs). split; [done|].
  destruct (pedidos_feitos_consulta evs Hevs) as [Hreq _].
  split.
  - unfold pedidos_feitos in *. cbn [omap list_omap]. by rewrite Hreq.
  - change (fechos (EvRequest (caminho cnpj) :: evs)) with (fechos evs).
    split; [|done].
    destruct (decide (fechos evs = 0)) as [->|Hne]; [lia|].
    rewrite (Hone Hne). lia.
Qed.

(** X4.  The identifier is not validated: one without any digit, the
    empty one included, is still looked up, with the bare path
    [/v1/cnpj/]. *)
Theorem obter_dados_sem_digitos (servidor : registro) (cnpj : pystr)
    (st : estado) :
  Forall (fun c => str_isdigit c = false) cnpj ->
  let r := obter_dados_empresa_por_cnpj servidor cnpj st in
  pedidos r.1 = S (pedidos st) /\
  r.2 = registro_de servidor (pedidos st) [] /\
  exists evs,
    saida r.1 = saida st ++ EvRequest (str "/v1/cnpj/") :: evs /\
    pedidos_feitos evs = [].
Proof.
  intros Hnd r.
  assert (Hc : caminho cnpj = str "/v1/cnpj/").
  { unfold caminho. apply limpar_cnpj_nil_iff in Hnd. rewrite Hnd.
    apply app_nil_r. }
  destruct (obter_dados_frame servidor cnpj st) as (Hp & _ & _ & Hres & _).
  destruct (obter_dados_eventos servidor cnpj st) as (evs & Hs & Hevs & _).
  split; [done|]. split.
  - subst r. rewrite Hres. unfold registro_de.
    rewrite !obter_dados_run. cbn [pedidos]. rewrite Hc.
    apply limpar_cnpj_nil_iff in Hnd. rewrite Hnd. reflexivity.
  - exists evs. rewrite <- Hc. split; [done|].
    by apply pedidos_feitos_consulta.
Qed.

Lemma obter_dados_sem_digitos_witness :
  Forall (fun c => str_isdigit c = false) (str "abc") /\
  pedidos (obter_dados_empresa_por_cnpj servidor_404 (str "abc")
             estado_exemplo).1 = 1.
Proof.
  assert (H : Forall (fun c => str_isdigit c = false) (str "abc")).
  { apply limpar_cnpj_nil_iff. reflexivity. }
  split; [exact H|].
  exact (proj1 (obter_dados_sem_digitos servidor_404 (str "abc")
                  estado_exemplo H)).
Defined.

(** ** The formatter *)

Lemma linha_de_ext f g :
  (forall c, c ∈ campos_interesse -> f c = g c) -> linha_de f = linha_de g.
Proof.
  intros H. unfold linha_de. apply Forall_fmap_ext_1, Forall_forall.
  intros c Hc. by rewrite H.
Qed.

(** A row the formatter returns is the row of some assignment of values
    to the ten fields. *)
Lemma formatar_dados_linha_de d row :
  formatar_dados (PDict d) = Ok row -> exists f, row = linha_de f.
Proof.
  rewrite formatar_dados_dict.
  destruct (d !! str "atividade_principal") as [w|]; [|intros [= <-]; eauto].
  destruct (truthy w); [|intros [= <-]; eauto].
  destruct (py_getitem0 w) as [x|]; [|discriminate]. simpl.
  destruct (py_get x _ _); [|discriminate]. intros [= <-]. eauto.
Qed.

Lemma formatar_dados_nao_dict v :
  (forall d, v <> PDict d) -> formatar_dados v = Raise AttributeError.
Proof. intros Hv. destruct v; try reflexivity. by destruct (Hv d). Qed.

Lemma campos_interesse_NoDup : NoDup campos_interesse.
Proof. apply (bool_decide_unpack _). by vm_compute. Qed.

Lemma linha_como_dict_lookup f c :
  c ∈ campos_interesse ->
  (list_to_map (linha_de f) : gmap pystr pyval) !! c = Some (f c).
Proof.
  intros Hc. apply elem_of_list_to_map_1.
  - rewrite linha_de_keys. apply campos_interesse_NoDup.
  - unfold linha_de. apply list_elem_of_fmap. eauto.
Qed.

(** X5.  The formatter looks at the ten fields and at nothing else: two
    mappings that agree on them are formatted alike, whether to a row or
    to an exception, whatever other fields they carry. *)
Theorem formatar_dados_so_campos (d1 d2 : gmap pystr pyval) :
  (forall c, c ∈ campos_interesse -> d1 !! c = d2 !! c) ->
  formatar_dados (PDict d1) = formatar_dados (PDict d2).
Proof.
  intros H. rewrite !formatar_dados_dict.
  rewrite <- (H (str "atividade_principal")) by campo_presente.
  assert (Hg : linha_de (campo_ou_vazio d1) = linha_de (campo_ou_vazio d2)).
  { apply linha_de_ext. intros c Hc. unfold campo_ou_vazio. by rewrite H. }
  destruct (d1 !! str "atividade_principal") as [w|]; [|by rewrite Hg].
  destruct (truthy w); [|by rewrite Hg].
  destruct (py_getitem0 w) as [x|]; [|done]. cbn [mbind result_bind].
  destruct (py_get x _ _) as [texto|]; [|done]. cbn [mbind result_bind].
  f_equal.
  apply linha_de_ext. intros c Hc. case_bool_decide; [done|].
  unfold campo_ou_vazio. by rewrite H.
Qed.

Lemma formatar_dados_so_campos_witness :
  let d1 : gmap pystr pyval := {[ str "nome" := PStr (str "ACME") ]} in
  let d2 : gmap pystr pyval :=
    {[ str "nome" := PStr (str "ACME"); str "fantasia" := PStr (str "A") ]} in
  (forall c, c ∈ campos_interesse -> d1 !! c = d2 !! c) /\
  formatar_dados (PDict d1) = formatar_dados (PDict d2).
Proof.
  intros d1 d2.
  assert (H : forall c, c ∈ campos_interesse -> d1 !! c = d2 !! c).
  { intros c Hc. unfold campos_interesse in Hc.
    rewrite !elem_of_cons, elem_of_nil in Hc.
    repeat (destruct Hc as [->|Hc]; [reflexivity|]). done. }
  split; [exact H|]. exact (formatar_dados_so_campos d1 d2 H).
Defined.

(** X6.  Formatting a row again is safe only when its activity is falsy:
    then the row comes back as it is.  When the activity is a non-empty
    string, as after a successful extraction of the text, formatting the
    row again raises [AttributeError], because the first character of
    the string has no [get]. *)
Theorem formatar_dados_de_novo (d : gmap pystr pyval) (row : linha) :
  formatar_dados (PDict d) = Ok row ->
  (forall v,
      dict_lookup row (str "atividade_principal") = Some v ->
      truthy v = false ->
      formatar_dados (linha_como_dict row) = Ok row) /\
  (forall s,
      dict_lookup row (str "atividade_principal") = Some (PStr s) ->
      s <> [] ->
      formatar_dados (linha_como_dict row) = Raise AttributeError).
Proof.
  intros [f ->]%formatar_dados_linha_de. unfold linha_como_dict.
  rewrite dict_lookup_linha_de by campo_presente.
  rewrite formatar_dados_dict, linha_como_dict_lookup by campo_presente.
  split.
  - intros v [= <-] ->. reflexivity.
  - intros s [= Hs] Hne. rewrite Hs. by destruct s.
Qed.

Lemma formatar_dados_de_novo_witness :
  let d : gmap pystr pyval :=
    {[ str "atividade_principal" :=
         PList [PDict {[ str "text" := PStr comercio ]}] ]} in
  let row := linha_de (fun c =>
               if bool_decide (c = str "atividade_principal")
               then PStr comercio else PStr []) in
  (formatar_dados (PDict d) = Ok row /\
   dict_lookup row (str "atividade_principal") = Some (PStr comercio) /\
   comercio <> []) /\
  formatar_dados (linha_como_dict row) = Raise AttributeError.
Proof.
  intros d row.
  assert (H1 : formatar_dados (PDict d) = Ok row) by reflexivity.
  assert (H2 : dict_lookup row (str "atividade_principal")
               = Some (PStr comercio)) by reflexivity.
  assert (H3 : comercio <> []) by discriminate.
  split; [done|].
  exact (proj2 (formatar_dados_de_novo d row H1) comercio H2 H3).
Defined.

(** ** The appender, again *)

Lemma valores_app B1 B2 : valores (B1 ++ B2) = valores B1 ++ valores B2.
Proof. apply fmap_app. Qed.

Lemma salvar_lotes_cons B lotes arq aba st :
  salvar_lotes (B :: lotes) arq aba st =
  match salvar_dados_empresa_excel (pd_DataFrame B) arq aba st with
  | (st', Ok _) => salvar_lotes lotes arq aba st'
  | (st', Raise e) => (st', Raise e)
  end.
Proof. reflexivity. Qed.

(** Consecutive appends of non-empty batches to a worksheet that is
    there. *)
Lemma salvar_lotes_existente lotes arq aba : forall B st book ws,
  disco st !! arq = Some book ->
  book !! aba = Some (Worksheet ws) ->
  Forall lote_de_texto (B :: lotes) ->
  let r := salvar_lotes (B :: lotes) arq aba st in
  r.2 = Ok () /\
  exists ws',
    disco r.1 !! arq ≫= (fun b : workbook => b !! aba)
      = Some (Worksheet ws') /\
    max_row ws' = max_row ws + length (concat (B :: lotes)) /\
    forall i j,
      valor_em ws' (i, j) =
      if decide (i <= max_row ws) then valor_em ws (i, j) ≫= guardado
      else celula_de (valores (concat (B :: lotes))) (i - max_row ws) j
             ≫= guardado.
Proof.
  induction lotes as [|B' lotes IH]; intros B st book ws Hbook Hws Hfmt;
    inversion_clear Hfmt as [|? ? [Hne HB] Hrest];
    pose proof (linha_de_texto_formatada B HB) as HBf;
    cbn zeta; rewrite salvar_lotes_cons,
      (salvar_anexa B arq aba st book ws Hbook Hws).
  - split; [done|]. eexists. split.
    { cbn [salvar_lotes mret M_ret fst gravado disco].
      rewrite lookup_insert_eq. cbn. apply lookup_insert_eq. }
    cbn [concat]. rewrite app_nil_r.
    split; [by apply max_row_anexada|]. intros i j. apply anexada_valor.
  - set (ws1 := omap guardar_celula (folha_anexada ws (valores B))).
    set (book1 := <[aba := Worksheet ws1]> (guardar book)).
    set (st1 := gravado st arq book1).
    destruct (IH B' st1 book1 ws1) as (Hok & ws' & Hd & Hmax & Hval);
      [| |done|].
    { subst st1. cbn [gravado disco]. apply lookup_insert_eq. }
    { apply lookup_insert_eq. }
    assert (Hm1 : max_row ws1 = max_row ws + length B)
      by (by apply max_row_anexada).
    split; [done|]. exists ws'. split; [done|]. split.
    + rewrite Hmax, Hm1.
      change (concat (B :: B' :: lotes)) with (B ++ concat (B' :: lotes)).
      rewrite length_app. lia.
    + intros i j. rewrite Hval, Hm1.
      change (concat (B :: B' :: lotes)) with (B ++ concat (B' :: lotes)).
      rewrite valores_app, celula_de_app_if, valores_length.
      subst ws1. rewrite anexada_valor.
      destruct (decide (i <= max_row ws)) as [Hi|Hi].
      * rewrite decide_True by lia. apply guardado_guardado.
      * destruct (decide (i <= max_row ws + length B)) as [Hi2|Hi2].
        -- rewrite decide_True by lia. apply guardado_guardado.
        -- rewrite decide_False by lia.
           by replace (i - (max_row ws + length B))
             with (i - max_row ws - length B) by lia.
Qed.

(** X7.  Any number of consecutive appends, at least one, of non-empty
    batches of formatted rows of text to a worksheet that is there and
    has room for them: every invocation returns normally, no header is
    written, every value the sheet had stays at its place, the batches
    stand below the last row the sheet had, one below the other in
    order, an empty string being a cell without value, and the last row
    moves down by the number of rows appended. *)
Theorem salvar_lotes_anexa (B : list linha) (lotes : list (list linha))
    (arq aba : pystr) (st : estado) (book : workbook) (ws : worksheet) :
  disco st !! arq = Some book ->
  book !! aba = Some (Worksheet ws) ->
  Forall lote_de_texto (B :: lotes) ->
  cabe (max_row ws + length (concat (B :: lotes))) ->
  let r := salvar_lotes (B :: lotes) arq aba st in
  r.2 = Ok () /\
  exists ws',
    disco r.1 !! arq ≫= (fun b : workbook => b !! aba)
      = Some (Worksheet ws') /\
    max_row ws' = max_row ws + length (concat (B :: lotes)) /\
    forall i j,
      valor_em ws' (i, j) =
      if decide (i <= max_row ws) then valor_em ws (i, j) ≫= guardado
      else celula_de (valores (concat (B :: lotes))) (i - max_row ws) j
             ≫= guardado.
Proof.
  intros Hbook Hws Hfmt _.
  exact (salvar_lotes_existente lotes arq aba B st book ws Hbook Hws Hfmt).
Qed.

Lemma salvar_lotes_anexa_witness :
  (disco estado_com_dados !! caminho_planilha = Some livro_com_dados /\
   livro_com_dados !! str "Dados" = Some (Worksheet folha_com_dados) /\
   Forall lote_de_texto [[linha_parcial]; [linha_exemplo]] /\
   cabe (max_row folha_com_dados
         + length (concat [[linha_parcial]; [linha_exemplo]]))) /\
  (salvar_lotes [[linha_parcial]; [linha_exemplo]] caminho_planilha
     (str "Dados") estado_com_dados).2 = Ok ().
Proof.
  assert (H1 : disco estado_com_dados !! caminho_planilha
               = Some livro_com_dados) by reflexivity.
  assert (H2 : livro_com_dados !! str "Dados"
               = Some (Worksheet folha_com_dados)) by reflexivity.
  assert (H3 : Forall lote_de_texto [[linha_parcial]; [linha_exemplo]]).
  { repeat constructor; discriminate. }
  assert (H4 : cabe (max_row folha_com_dados
                     + length (concat [[linha_parcial]; [linha_exemplo]]))).
  { vm_compute. discriminate. }
  split; [exact (conj H1 (conj H2 (conj H3 H4)))|].
  exact (proj1 (salvar_lotes_anexa _ _ _ _ _ _ _ H1 H2 H3 H4)).
Defined.



(** What an invocation leaves alone, whatever its outcome. *)
Lemma salvar_moldura df arq aba st :
  let r := salvar_dados_empresa_excel df arq aba st in
  pedidos r.1 = pedidos st /\
  resultados r.1 = resultados st /\
  (forall arq', arq' <> arq -> disco r.1 !! arq' = disco st !! arq') /\
  (disco st !! arq = None -> disco r.1 = disco st).
Proof.
  cbn zeta. rewrite salvar_run.
  destruct (disco st !! arq) as [book|] eqn:Hbook;
    cbn [fst gravado pedidos resultados disco];
    repeat split; try done.
  intros arq' Hne. by rewrite lookup_insert_ne.
Qed.

(** The sheets the [try] statement touches: the one of the title, or a
    new one, whose title starts with the title asked for or, when the
    title is refused, with the default title. *)
Lemma anexar_ou_criar_outras df book aba aba' :
  starts_with aba aba' = false ->
  validar_titulo aba = Ok () \/ starts_with (str "Sheet") aba' = false ->
  (anexar_ou_criar df book aba).1 !! aba' = book !! aba'.
Proof.
  intros Ha Hs.
  assert (Hne : forall ds, aba ++ ds <> aba').
  { intros ds <-. by rewrite starts_with_app in Ha. }
  assert (Hns : validar_titulo aba = Ok () \/
                forall ds, str "Sheet" ++ ds <> aba').
  { destruct Hs as [Hs|Hs]; [by left|right].
    intros ds <-. by rewrite starts_with_app in Hs. }
  rewrite anexar_ou_criar_run.
  destruct (book !! aba) as [[ws|]|] eqn:Hb; cbn [fst]; [|done|].
  - apply lookup_insert_ne. specialize (Hne []). by rewrite app_nil_r in Hne.
  - unfold to_excel. rewrite Hb. cbv zeta.
    destruct (avoid_duplicate_name_sufixo (titulos book) (str "Sheet"))
      as [ds ->].
    destruct (validar_titulo aba); cbn [fst];
      [|destruct Hns as [?|Hns]; [done|by apply lookup_insert_ne]].
    apply lookup_insert_ne.
    match goal with
    | |- context [avoid_duplicate_name ?nomes aba] =>
        destruct (avoid_duplicate_name_sufixo nomes aba) as [ds' ->]
    end.
    destruct (bool_decide _); [|apply Hne].
    specialize (Hne []). by rewrite app_nil_r in Hne.
Qed.

(** X9.  An invocation of the appender, whether it returns or raises,
    touches in the file only sheets whose title starts with the title
    asked for or with the default title [Sheet] of a new sheet: every
    other sheet is saved as it was, and no sheet appears under another
    title.  No other file changes, and a file that does not open is not
    created. *)
Theorem salvar_dados_so_a_aba (df : DataFrame) (arq aba : pystr)
    (st : estado) :
  let r := salvar_dados_empresa_excel df arq aba st in
  (forall arq', arq' <> arq -> disco r.1 !! arq' = disco st !! arq') /\
  (disco st !! arq = None -> disco r.1 = disco st) /\
  (forall book,
      disco st !! arq = Some book ->
      exists book',
        disco r.1 !! arq = Some book' /\
        forall aba',
          starts_with aba aba' = false ->
          starts_with (str "Sheet") aba' = false ->
          book' !! aba' = guardar_folha <$> book !! aba').
Proof.
  intros r. destruct (salvar_moldura df arq aba st) as (_ & _ & Hf & Hn).
  split; [exact Hf|]. split; [exact Hn|].
  intros book Hbook. subst r. rewrite salvar_run, Hbook.
  eexists. split; [cbn [fst gravado disco]; apply lookup_insert_eq|].
  intros aba' Ha Hs. rewrite lookup_guardar.
  rewrite anexar_ou_criar_outras; [done|done|by right].
Qed.

Lemma salvar_dados_so_a_aba_witness :
  (disco estado_exemplo !! caminho_planilha = Some livro_exemplo /\
   starts_with (str "a/b") (str "CNPJ") = false /\
   starts_with (str "Sheet") (str "CNPJ") = false) /\
  exists book',
    disco (salvar_dados_empresa_excel (pd_DataFrame [linha_exemplo])
             caminho_planilha (str "a/b") estado_exemplo).1
      !! caminho_planilha = Some book' /\
    book' !! str "CNPJ" = guardar_folha <$> livro_exemplo !! str "CNPJ".
Proof.
  assert (H1 : disco estado_exemplo !! caminho_planilha = Some livro_exemplo).
  { reflexivity. }
  assert (H2 : starts_with (str "a/b") (str "CNPJ") = false) by reflexivity.
  assert (H3 : starts_with (str "Sheet") (str "CNPJ") = false) by reflexivity.
  split; [exact (conj H1 (conj H2 H3))|].
  destruct (proj2 (proj2 (salvar_dados_so_a_aba (pd_DataFrame [linha_exemplo])
                            caminho_planilha (str "a/b") estado_exemplo))
              livro_exemplo H1) as (book' & Hb & Hs).
  exists book'. split; [exact Hb|]. exact (Hs (str "CNPJ") H2 H3).
Defined.

(** X10.  On a worksheet that is there but has no cell yet, the rows of
    a non-empty batch of formatted rows of text are written from row 2
    on: [max_row] is 1 there, so row 1 stays without any cell and the
    sheet gets no header; the last row of the sheet is then the last row
    of the batch. *)
Theorem salvar_dados_aba_em_branco (B : list linha) (arq aba : pystr)
    (st : estado) (book : workbook) :
  B <> [] -> Forall linha_de_texto B -> cabe (S (length B)) ->
  disco st !! arq = Some book ->
  book !! aba = Some (Worksheet ∅) ->
  let r := salvar_dados_empresa_excel (pd_DataFrame B) arq aba st in
  r.2 = Ok () /\
  exists ws',
    disco r.1 =
      <[arq := <[aba := Worksheet ws']> (guardar book)]> (disco st) /\
    (forall j, ws' !! (1, j) = None) /\
    (forall i j,
        valor_em ws' (S i, j) = celula_de (valores B) i j ≫= guardado) /\
    max_row ws' = S (length B).
Proof.
  intros Hne HB _ Hbook Haba. cbn zeta.
  rewrite (salvar_anexa B arq aba st book ∅ Hbook Haba).
  split; [done|]. eexists. split; [reflexivity|]. split; [|split].
  - intros j. rewrite anexada_guardada, max_row_empty.
    by rewrite decide_True, lookup_empty by lia.
  - intros i j. rewrite anexada_valor, max_row_empty.
    destruct i as [|i]; [by rewrite decide_True by lia|].
    rewrite decide_False by lia. by replace (S (S i) - 1) with (S i) by lia.
  - rewrite max_row_anexada, max_row_empty;
      [lia|done|by apply linha_de_texto_formatada].
Qed.

Lemma salvar_dados_aba_em_branco_witness :
  ([linha_parcial] <> [] /\
   Forall linha_de_texto [linha_parcial] /\
   cabe 2 /\
   disco estado_em_branco !! caminho_planilha = Some livro_em_branco /\
   livro_em_branco !! str "Dados" = Some (Worksheet ∅)) /\
  (salvar_dados_empresa_excel (pd_DataFrame [linha_parcial])
     caminho_planilha (str "Dados") estado_em_branco).2 = Ok ().
Proof.
  assert (H1 : [linha_parcial] <> []) by discriminate.
  assert (H2 : Forall linha_de_texto [linha_parcial]).
  { constructor; [split; reflexivity|constructor]. }
  assert (H3 : cabe 2) by (vm_compute; discriminate).
  assert (H4 : disco estado_em_branco !! caminho_planilha
               = Some livro_em_branco) by reflexivity.
  assert (H5 : livro_em_branco !! str "Dados" = Some (Worksheet ∅))
    by reflexivity.
  split; [exact (conj H1 (conj H2 (conj H3 (conj H4 H5))))|].
  exact (proj1 (salvar_dados_aba_em_branco _ _ (str "Dados") _ _
                  H1 H2 H3 H4 H5)).
Defined.

(** ** The run *)

Lemma pedidos_feitos_app evs1 evs2 :
  pedidos_feitos (evs1 ++ evs2) = pedidos_feitos evs1 ++ pedidos_feitos evs2.
Proof. apply omap_app. Qed.

Lemma lidos_app evs1 evs2 : lidos (evs1 ++ evs2) = lidos evs1 ++ lidos evs2.
Proof. apply omap_app. Qed.

Lemma evento_da_consulta_do_laco evs :
  Forall evento_da_consulta evs -> Forall evento_do_laco evs.
Proof.
  intros H. eapply Forall_impl; [exact H|]. intros [| |[]|]; done.
Qed.

(** The events of one turn: the identifier is announced as it was read,
    the request follows with the cleaned one, then come events of the
    lookup only. *)
Lemma passo_rastro servidor cnpj st :
  let r := passo servidor cnpj st in
  pedidos r.1 = S (pedidos st) /\
  exists evs,
    saida r.1 =
      saida st ++ EvPrint (MsgLendo cnpj) :: EvRequest (caminho cnpj) :: evs /\
    Forall evento_da_consulta evs.
Proof.
  cbn zeta. rewrite passo_run. cbn zeta.
  set (st0 := {| pedidos := pedidos st;
                 saida := saida st ++ [EvPrint (MsgLendo cnpj)];
                 disco := disco st; resultados := resultados st |}).
  destruct (obter_dados_frame servidor cnpj st0) as (Hp & _).
  destruct (obter_dados_eventos servidor cnpj st0) as (evs & Hs & Hevs & _).
  cbn [pedidos saida st0] in Hp, Hs. rewrite <- app_assoc in Hs. cbn [app] in Hs.
  destruct ((obter_dados_empresa_por_cnpj servidor cnpj st0).2) as [v|e];
    [|eauto].
  destruct (truthy v); [|eauto].
  destruct (formatar_dados v); cbn [fst pedidos saida]; eauto.
Qed.

(** The events of the loop, for the identifiers it got to. *)
Lemma laco_rastro servidor cnpjs : forall st,
  let r := laco servidor cnpjs st in
  exists k evs,
    k <= length cnpjs /\
    saida r.1 = saida st ++ evs /\
    Forall evento_do_laco evs /\
    pedidos_feitos evs = caminho <$> take k cnpjs /\
    lidos evs = take k cnpjs /\
    pedidos r.1 = pedidos st + k /\
    (r.2 = Ok () -> k = length cnpjs).
Proof.
  induction cnpjs as [|cnpj resto IH]; intros st.
  - exists 0, []. cbn. rewrite app_nil_r. repeat split; auto; lia.
  - cbn zeta. rewrite laco_cons.
    destruct (passo_rastro servidor cnpj st) as (Hp & evs & Hs & Hevs).
    destruct (pedidos_feitos_consulta evs Hevs) as [Hreq Hlid].
    assert (Hturn :
      pedidos_feitos (EvPrint (MsgLendo cnpj) :: EvRequest (caminho cnpj) :: evs)
        = [caminho cnpj] /\
      lidos (EvPrint (MsgLendo cnpj) :: EvRequest (caminho cnpj) :: evs)
        = [cnpj] /\
      Forall evento_do_laco
        (EvPrint (MsgLendo cnpj) :: EvRequest (caminho cnpj) :: evs)).
    { unfold pedidos_feitos, lidos in *. cbn [omap list_omap].
      rewrite Hreq, Hlid. repeat split.
      repeat constructor. by apply evento_da_consulta_do_laco. }
    destruct Hturn as (Hreq1 & Hlid1 & Hev1).
    destruct (passo servidor cnpj st) as [st1 [[]|e]]; cbn [fst snd] in *.
    + destruct (IH st1) as (k & evs' & Hk & Hs' & Hevs' & Hreq' & Hlid' & Hp' & Hok).
      exists (S k), ((EvPrint (MsgLendo cnpj) :: EvRequest (caminho cnpj) :: evs)
                     ++ evs').
      split; [simpl; lia|]. split; [by rewrite Hs', Hs, <- app_assoc|].
      split; [by apply Forall_app|].
      rewrite pedidos_feitos_app, lidos_app, Hreq1, Hlid1, Hreq', Hlid'.
      repeat split; try done; [lia|]. intros H. simpl. f_equal. auto.
    + exists 1, (EvPrint (MsgLendo cnpj) :: EvRequest (caminho cnpj) :: evs).
      cbn [take fmap list_fmap]. rewrite take_0.
      repeat split; try done; [simpl; lia|lia].
Qed.

(** The events of a whole run: those of the loop, then at most the
    opening of the workbook and the final message. *)
Lemma principal_rastro servidor coluna st :
  let l := laco servidor (dropna coluna) (estado_inicial st) in
  let r := principal servidor coluna st in
  pedidos r.1 = pedidos l.1 /\
  exists fim,
    saida r.1 = saida l.1 ++ fim /\
    pedidos_feitos fim = [] /\ lidos fim = [] /\
    (l.2 <> Ok () -> r = l /\ fim = []) /\
    (r.2 = Ok () -> exists fim', fim = fim' ++ [EvPrint MsgSalvos]) /\
    (r.2 <> Ok () -> EvPrint MsgSalvos ∉ fim).
Proof.
  intros l r. subst r. rewrite principal_run. cbn zeta. subst l.
  destruct (laco servidor (dropna coluna) (estado_inicial st))
    as [st1 [[]|e]]; cbn [fst snd].
  - destruct (resultados st1) as [|row rs] eqn:Hrs.
    + cbn [print emit fst snd pedidos saida]. split; [done|].
      exists [EvPrint MsgSalvos]. repeat split; try done.
      intros _. by exists [].
    + destruct (salvar_moldura (pd_DataFrame (row :: rs)) caminho_planilha
                  (str "Dados") st1) as (Hp & _).
      pose proof (salvar_saida (pd_DataFrame (row :: rs)) caminho_planilha
                    (str "Dados") st1) as Hs.
      destruct (salvar_dados_empresa_excel _ _ _ st1) as [st2 [[]|e]];
        cbn [print emit fst snd pedidos saida] in *.
      * split; [done|].
        exists [EvExcelWriter caminho_planilha; EvPrint MsgSalvos].
        rewrite Hs, <- app_assoc. repeat split; try done.
        intros _. by exists [EvExcelWriter caminho_planilha].
      * split; [done|]. exists [EvExcelWriter caminho_planilha].
        repeat split; try done.
        intros _ H. inversion H as [|? ? ? H']. inversion H'.
  - split; [done|]. exists []. rewrite app_nil_r.
    repeat split; try done. intros _ H. inversion H.
Qed.

(** Where a loop that raises stops: the turns before the one that
    raised all returned, and nothing follows it. *)
Lemma laco_paragem servidor cnpjs : forall st e,
  (laco servidor cnpjs st).2 = Raise e ->
  exists j cnpj st',
    cnpjs !! j = Some cnpj /\
    laco servidor (take j cnpjs) st = (st', Ok ()) /\
    passo servidor cnpj st' = ((laco servidor cnpjs st).1, Raise e) /\
    pedidos (laco servidor cnpjs st).1 = pedidos st + S j.
Proof.
  induction cnpjs as [|c resto IH]; intros st e; [discriminate|].
  rewrite laco_cons.
  destruct (passo_rastro servidor c st) as (Hp & _).
  destruct (passo servidor c st) as [st1 [[]|e']] eqn:Hpasso;
    cbn [fst snd] in *.
  - intros He. destruct (IH st1 e He) as (j & cnpj & st' & Hj & Hl & Hs & Hn).
    exists (S j), cnpj, st'. split; [done|]. split; [|split; [done|lia]].
    cbn [take]. by rewrite laco_cons, Hpasso.
  - intros [= ->]. exists 0, c, st. repeat split; [done|lia].
Qed.

(** X11.  The run makes one request for each identifier of the column
    that is not blank, in the order of the column, with the path of the
    cleaned identifier; each identifier is announced as it was read.  It
    gets through all of them when the loop ends normally.  When a turn
    raises, the turns before it all returned, the run ends with the
    exception of that turn, and the identifier of that turn is the last
    one asked for: nothing is retried, nothing is asked twice and
    nothing is asked after an exception. *)
Theorem principal_pedidos (servidor : registro)
    (coluna : list (option pystr)) (st : estado) :
  let cnpjs := dropna coluna in
  let l := laco servidor cnpjs (estado_inicial st) in
  let r := principal servidor coluna st in
  exists k evs,
    k <= length cnpjs /\
    saida r.1 = saida st ++ evs /\
    pedidos_feitos evs = caminho <$> take k cnpjs /\
    lidos evs = take k cnpjs /\
    pedidos r.1 = pedidos st + k /\
    (l.2 = Ok () -> k = length cnpjs) /\
    (forall e,
        l.2 = Raise e ->
        r.2 = Raise e /\
        exists j cnpj st',
          k = S j /\ cnpjs !! j = Some cnpj /\
          laco servidor (take j cnpjs) (estado_inicial st) = (st', Ok ()) /\
          (passo servidor cnpj st').2 = Raise e).
Proof.
  intros cnpjs l r.
  destruct (laco_rastro servidor cnpjs (estado_inicial st))
    as (k & evs & Hk & Hs & _ & Hreq & Hlid & Hp & Hok).
  destruct (principal_rastro servidor coluna st)
    as (Hp' & fim & Hs' & Hreq' & Hlid' & Hraise & _).
  fold cnpjs in Hp', Hs', Hraise. fold l in Hs, Hp, Hok, Hp', Hs', Hraise.
  fold r in Hp', Hs', Hraise.
  cbn [estado_inicial saida pedidos] in Hs, Hp.
  exists k, (evs ++ fim). split; [done|].
  split; [by rewrite Hs', Hs, app_assoc|].
  rewrite pedidos_feitos_app, lidos_app, Hreq, Hlid, Hreq', Hlid', !app_nil_r.
  split; [done|]. split; [done|]. split; [by rewrite Hp'|].
  split; [done|]. intros e He.
  destruct Hraise as [Hr _]; [by rewrite He|]. split; [by rewrite Hr|].
  destruct (laco_paragem servidor cnpjs (estado_inicial st) e He)
    as (j & cnpj & st' & Hj & Hl & Hturn & Hn).
  fold l in Hn, Hturn. cbn [estado_inicial pedidos] in Hn.
  exists j, cnpj, st'. split; [lia|]. split; [done|]. split; [done|].
  by rewrite Hturn.
Qed.

Lemma principal_pedidos_witness :
  (laco servidor_invalido (dropna coluna_exemplo)
     (estado_inicial estado_exemplo)).2 = Raise JSONDecodeError /\
  pedidos (principal servidor_invalido coluna_exemplo estado_exemplo).1 = 1.
Proof.
  assert (H : (laco servidor_invalido (dropna coluna_exemplo)
                 (estado_inicial estado_exemplo)).2 = Raise JSONDecodeError)
    by reflexivity.
  split; [exact H|].
  destruct (principal_pedidos servidor_invalido coluna_exemplo estado_exemplo)
    as (k & evs & _ & _ & _ & _ & Hp & _ & Hstop).
  destruct (Hstop _ H) as (_ & j & cnpj & st' & -> & _ & Hl & _).
  rewrite Hp. destruct j as [|j]; [reflexivity|].
  exfalso. revert Hl. vm_compute. discriminate.
Defined.

(** X12.  An exception in the loop ends the run with that exception
    before the workbook is opened: the disk is as it was, the rows
    gathered so far are not written, and the final message is not
    printed. *)
Theorem principal_excecao_no_laco (servidor : registro)
    (coluna : list (option pystr)) (st : estado) (e : exn) :
  (laco servidor (dropna coluna) (estado_inicial st)).2 = Raise e ->
  let r := principal servidor coluna st in
  r.2 = Raise e /\
  disco r.1 = disco st /\
  exists evs, saida r.1 = saida st ++ evs /\ Forall evento_do_laco evs.
Proof.
  intros Hl r.
  destruct (principal_rastro servidor coluna st) as (_ & fim & _ & _ & _ & Hr & _).
  destruct Hr as [Hr _]; [by rewrite Hl|]. fold r in Hr. rewrite Hr.
  destruct (laco_spec servidor (dropna coluna) (estado_inicial st))
    as (Hd & _).
  destruct (laco_rastro servidor (dropna coluna) (estado_inicial st))
    as (k & evs & _ & Hs & Hevs & _).
  split; [done|]. split; [done|]. eauto.
Qed.

Lemma principal_excecao_no_laco_witness :
  (laco servidor_invalido (dropna coluna_exemplo)
     (estado_inicial estado_exemplo)).2 = Raise JSONDecodeError /\
  (principal servidor_invalido coluna_exemplo estado_exemplo).2
    = Raise JSONDecodeError.
Proof.
  assert (H : (laco servidor_invalido (dropna coluna_exemplo)
                 (estado_inicial estado_exemplo)).2 = Raise JSONDecodeError)
    by reflexivity.
  split; [exact H|].
  exact (proj1 (principal_excecao_no_laco servidor_invalido coluna_exemplo
                  estado_exemplo JSONDecodeError H)).
Defined.

(** X13.  The final message is the last thing a run does when it ends
    normally, and a run that raises never prints it.  It is printed also
    when no identifier yielded a record: the loop ends with an empty
    batch, nothing is written, and the run still ends normally with the
    message that the data were saved. *)
Theorem principal_mensagem_final (servidor : registro)
    (coluna : list (option pystr)) (st : estado) :
  let l := laco servidor (dropna coluna) (estado_inicial st) in
  let r := principal servidor coluna st in
  (r.2 = Ok () ->
   exists evs, saida r.1 = saida st ++ evs ++ [EvPrint MsgSalvos]) /\
  (r.2 <> Ok () ->
   exists evs, saida r.1 = saida st ++ evs /\ EvPrint MsgSalvos ∉ evs) /\
  (l.2 = Ok () -> resultados l.1 = [] ->
   r.2 = Ok () /\ disco r.1 = disco st).
Proof.
  intros l r.
  destruct (laco_rastro servidor (dropna coluna) (estado_inicial st))
    as (k & evs & _ & Hs & Hevs & _).
  destruct (principal_rastro servidor coluna st)
    as (_ & fim & Hs' & _ & _ & _ & Hok & Hnot).
  fold l in Hs, Hs'. fold r in Hs', Hok, Hnot.
  cbn [estado_inicial saida] in Hs.
  split; [|split].
  - intros Hr. destruct (Hok Hr) as [fim' ->].
    exists (evs ++ fim'). by rewrite Hs', Hs, <- !app_assoc.
  - intros Hr. exists (evs ++ fim). split; [by rewrite Hs', Hs, app_assoc|].
    intros [H|H]%elem_of_app; [|by apply (Hnot Hr)].
    eapply Forall_forall in Hevs; [|exact H]. exact Hevs.
  - intros Hl Hvazio. subst r. rewrite principal_run. cbn zeta. fold l.
    rewrite Hl, Hvazio. cbn [print emit fst snd disco]. split; [done|].
    destruct (laco_spec servidor (dropna coluna) (estado_inicial st))
      as (Hd & _).
    exact Hd.
Qed.

Lemma principal_mensagem_final_witness :
  ((laco servidor_404 (dropna coluna_exemplo)
      (estado_inicial estado_exemplo)).2 = Ok () /\
   resultados (laco servidor_404 (dropna coluna_exemplo)
                 (estado_inicial estado_exemplo)).1 = []) /\
  (principal servidor_404 coluna_exemplo estado_exemplo).2 = Ok ().
Proof.
  assert (H1 : (laco servidor_404 (dropna coluna_exemplo)
                  (estado_inicial estado_exemplo)).2 = Ok ()) by reflexivity.
  assert (H2 : resultados (laco servidor_404 (dropna coluna_exemplo)
                             (estado_inicial estado_exemplo)).1 = [])
    by reflexivity.
  split; [done|].
  exact (proj1 (proj2 (proj2
           (principal_mensagem_final servidor_404 coluna_exemplo
              estado_exemplo)) H1 H2)).
Defined.

(** X14.  From the column to the sheet: when the loop ends normally with
    a batch that is not empty, of rows of text, and the file opens, the
    run ends normally.  If no sheet was called [Dados] and the title is
    free, the sheet now reads as the header and then the rows of the
    batch; if [Dados] was a worksheet with room for the batch, the
    values it had are at their places and the rows of the batch stand
    below its last row; an empty string is a cell without value.  If the
    file does not open, the run raises and the batch is lost. *)
Theorem principal_grava (servidor : registro) (coluna : list (option pystr))
    (st : estado) :
  let l := laco servidor (dropna coluna) (estado_inicial st) in
  let r := principal servidor coluna st in
  l.2 = Ok () -> lote_de_texto (resultados l.1) ->
  (disco st !! caminho_planilha = None ->
   r.2 = Raise OSError /\ disco r.1 = disco st) /\
  (forall book,
      disco st !! caminho_planilha = Some book ->
      (book !! str "Dados" = None -> titulo_livre book (str "Dados") ->
       cabe (S (length (resultados l.1))) ->
       r.2 = Ok () /\
       exists ws,
         disco r.1 =
           <[caminho_planilha :=
               <[str "Dados" := Worksheet ws]> (guardar book)]> (disco st) /\
         forall i j,
           valor_em ws (i, j) =
           celula_de ((PStr <$> campos_interesse) :: valores (resultados l.1))
             i j ≫= guardado) /\
      (forall ws0,
          book !! str "Dados" = Some (Worksheet ws0) ->
          cabe (max_row ws0 + length (resultados l.1)) ->
          r.2 = Ok () /\
          exists ws,
            disco r.1 =
              <[caminho_planilha :=
                  <[str "Dados" := Worksheet ws]> (guardar book)]>
                (disco st) /\
            forall i j,
              valor_em ws (i, j) =
              if decide (i <= max_row ws0)
              then valor_em ws0 (i, j) ≫= guardado
              else celula_de (valores (resultados l.1)) (i - max_row ws0) j
                     ≫= guardado)).
Proof.
  cbn zeta. rewrite principal_run. cbn zeta.
  destruct (laco_spec servidor (dropna coluna) (estado_inicial st))
    as (Hd & _).
  destruct (laco servidor (dropna coluna) (estado_inicial st)) as [st1 rl].
  cbn [fst snd] in *. cbn [estado_inicial disco] in Hd.
  intros -> [Hne HB].
  pose proof (linha_de_texto_formatada _ HB) as HBf.
  destruct (resultados st1) as [|row rs] eqn:Hrs; [done|]. split.
  - intros Hno. by rewrite salvar_run, Hd, Hno.
  - intros book Hbook. rewrite <- Hd in Hbook. split.
    + intros _ Hl _.
      rewrite (salvar_cria _ _ _ st1 book Hne HBf Hbook Hl).
      cbn [print emit gravado fst snd disco]. rewrite Hd.
      split; [done|]. eexists. split; [reflexivity|].
      intros i j. apply criada_valor.
    + intros ws0 Hws _.
      rewrite (salvar_anexa _ _ _ st1 book ws0 Hbook Hws).
      cbn [print emit gravado fst snd disco]. rewrite Hd.
      split; [done|]. eexists. split; [reflexivity|].
      intros i j. apply anexada_valor.
Qed.

Lemma principal_grava_witness :
  ((laco servidor_exemplo (dropna coluna_exemplo)
      (estado_inicial estado_exemplo)).2 = Ok () /\
   lote_de_texto
     (resultados (laco servidor_exemplo (dropna coluna_exemplo)
                    (estado_inicial estado_exemplo)).1) /\
   disco estado_exemplo !! caminho_planilha = Some livro_exemplo /\
   livro_exemplo !! str "Dados" = None /\
   titulo_livre livro_exemplo (str "Dados") /\
   cabe (S (length
              (resultados (laco servidor_exemplo (dropna coluna_exemplo)
                             (estado_inicial estado_exemplo)).1)))) /\
  (principal servidor_exemplo coluna_exemplo estado_exemplo).2 = Ok ().
Proof.
  assert (H1 : (laco servidor_exemplo (dropna coluna_exemplo)
                  (estado_inicial estado_exemplo)).2 = Ok ()) by reflexivity.
  assert (H2 : lote_de_texto
                 (resultados (laco servidor_exemplo (dropna coluna_exemplo)
                                (estado_inicial estado_exemplo)).1)).
  { split; [vm_compute; discriminate|].
    change (Forall linha_de_texto
              [linha_de (fun c =>
                 PStr (if bool_decide (c = str "nome") then str "ACME"
                       else if bool_decide (c = str "atividade_principal")
                            then comercio else []))]).
    constructor; [split; reflexivity|constructor]. }
  assert (H3 : disco estado_exemplo !! caminho_planilha = Some livro_exemplo).
  { reflexivity. }
  assert (H4 : livro_exemplo !! str "Dados" = None) by reflexivity.
  assert (H5 : titulo_livre livro_exemplo (str "Dados")).
  { split; [reflexivity|]. intros n [f Hf]. unfold livro_exemplo in Hf.
    apply lookup_singleton_Some in Hf as [<- _]. vm_compute. discriminate. }
  assert (H6 : cabe (S (length
              (resultados (laco servidor_exemplo (dropna coluna_exemplo)
                             (estado_inicial estado_exemplo)).1)))).
  { vm_compute. discriminate. }
  split; [exact (conj H1 (conj H2 (conj H3 (conj H4 (conj H5 H6)))))|].
  exact (proj1 (proj1 (proj2
           (principal_grava servidor_exemplo coluna_exemplo estado_exemplo
              H1 H2) livro_exemplo H3) H4 H5 H6)).
Defined.

(** X15.  A document that is truthy but not a mapping, such as a JSON
    string or a non-empty list, passes the test of the loop and is handed
    to the formatter, which raises [AttributeError]: the turn adds no row
    and the loop ends there, with the identifiers after it never looked
    up. *)
Theorem passo_documento_nao_dict (servidor : registro) (cnpj : pystr)
    (resto : list pystr) (st : estado) (v : pyval) :
  registro_de servidor (pedidos st) cnpj = Ok v ->
  truthy v = true ->
  (forall d, v <> PDict d) ->
  let r := passo servidor cnpj st in
  let l := laco servidor (cnpj :: resto) st in
  r.2 = Raise AttributeError /\
  resultados r.1 = resultados st /\
  l = r /\
  pedidos l.1 = S (pedidos st).
Proof.
  intros Hv Ht Hnd r l.
  assert (Hr : r.2 = Raise AttributeError /\ resultados r.1 = resultados st).
  { subst r. rewrite passo_run. cbn zeta.
    set (st0 := {| pedidos := pedidos st;
                   saida := saida st ++ [EvPrint (MsgLendo cnpj)];
                   disco := disco st; resultados := resultados st |}).
    destruct (obter_dados_frame servidor cnpj st0) as (_ & _ & Hres & Hobt & _).
    cbn [pedidos resultados st0] in Hobt, Hres.
    rewrite Hobt, Hv, Ht, (formatar_dados_nao_dict v Hnd). by cbn [fst snd]. }
  destruct Hr as [Hr2 Hr1]. split; [done|]. split; [done|].
  assert (Hl : l = r).
  { subst l. rewrite laco_cons. fold r. destruct r as [st1 [[]|e]];
      [discriminate Hr2|done]. }
  split; [done|]. rewrite Hl. apply passo_rastro.
Qed.

Lemma passo_documento_nao_dict_witness :
  (registro_de servidor_texto (pedidos estado_exemplo) (str "11222333000181")
     = Ok (PStr (str "Too many requests")) /\
   truthy (PStr (str "Too many requests")) = true /\
   (forall d, PStr (str "Too many requests") <> PDict d)) /\
  (passo servidor_texto (str "11222333000181") estado_exemplo).2
    = Raise AttributeError.
Proof.
  assert (H1 : registro_de servidor_texto (pedidos estado_exemplo)
                 (str "11222333000181")
               = Ok (PStr (str "Too many requests"))) by reflexivity.
  assert (H2 : truthy (PStr (str "Too many requests")) = true) by reflexivity.
  assert (H3 : forall d, PStr (str "Too many requests") <> PDict d)
    by discriminate.
  split; [done|].
  exact (proj1 (passo_documento_nao_dict servidor_texto _ [] estado_exemplo
                  _ H1 H2 H3)).
Defined.

(** X16.  However a run ends, it changes no file but [CNPJ.xlsx], and in
    that file it leaves every sheet whose title does not start with
    [Dados], the sheet it reads from among them, as it was or as a save
    of the workbook keeps it; no sheet appears under such a title. *)
Theorem principal_preserva_entrada (servidor : registro)
    (coluna : list (option pystr)) (st : estado) :
  let r := principal servidor coluna st in
  (forall arq, arq <> caminho_planilha -> disco r.1 !! arq = disco st !! arq) /\
  (disco st !! caminho_planilha = None -> disco r.1 = disco st) /\
  (forall book,
      disco st !! caminho_planilha = Some book ->
      exists book',
        disco r.1 !! caminho_planilha = Some book' /\
        (book' = book \/
         forall aba,
           starts_with (str "Dados") aba = false ->
           book' !! aba = guardar_folha <$> book !! aba)).
Proof.
  intros r. subst r. rewrite principal_run. cbn zeta.
  destruct (laco_spec servidor (dropna coluna) (estado_inicial st))
    as (Hd & _).
  cbn [estado_inicial disco] in Hd.
  assert (Hsame : forall st' : estado, disco st' = disco st ->
    (forall arq, arq <> caminho_planilha -> disco st' !! arq = disco st !! arq) /\
    (disco st !! caminho_planilha = None -> disco st' = disco st) /\
    (forall book,
        disco st !! caminho_planilha = Some book ->
        exists book',
          disco st' !! caminho_planilha = Some book' /\
          (book' = book \/
           forall aba,
             starts_with (str "Dados") aba = false ->
             book' !! aba = guardar_folha <$> book !! aba))).
  { intros st' ->. repeat split; try done. intros book Hb. eauto. }
  destruct (laco servidor (dropna coluna) (estado_inicial st))
    as [st1 [[]|e]]; cbn [fst snd] in *; [|by apply Hsame].
  destruct (resultados st1) as [|row rs]; [by apply Hsame|].
  destruct (salvar_moldura (pd_DataFrame (row :: rs)) caminho_planilha
              (str "Dados") st1) as (_ & _ & Hfiles & Hnone).
  rewrite Hd in Hfiles, Hnone.
  assert (Hbook : forall book,
    disco st !! caminho_planilha = Some book ->
    exists book',
      disco (salvar_dados_empresa_excel (pd_DataFrame (row :: rs))
               caminho_planilha (str "Dados") st1).1
        !! caminho_planilha = Some book' /\
      (book' = book \/
       forall aba,
         starts_with (str "Dados") aba = false ->
         book' !! aba = guardar_folha <$> book !! aba)).
  { intros book Hb. rewrite salvar_run, Hd, Hb. eexists.
    split; [cbn [fst gravado disco]; apply lookup_insert_eq|]. right.
    intros aba Ha. rewrite lookup_guardar.
    rewrite anexar_ou_criar_outras; [done|done|by left]. }
  destruct (salvar_dados_empresa_excel _ _ _ st1) as [st2 [[]|e]];
    cbn [print emit fst snd disco] in *; by repeat split.
Qed.

Lemma principal_preserva_entrada_witness :
  disco estado_exemplo !! caminho_planilha = Some livro_exemplo /\
  exists book',
    disco (principal servidor_exemplo coluna_exemplo estado_exemplo).1
      !! caminho_planilha = Some book' /\
    (book' = livro_exemplo \/
     book' !! str "CNPJ" = guardar_folha <$> livro_exemplo !! str "CNPJ").
Proof.
  assert (H : disco estado_exemplo !! caminho_planilha = Some livro_exemplo).
  { reflexivity. }
  split; [exact H|].
  destruct (proj2 (proj2 (principal_preserva_entrada servidor_exemplo
                            coluna_exemplo estado_exemplo)) livro_exemplo H)
    as (book' & Hb & [Hc|Hc]).
  - exists book'. split; [exact Hb|]. by left.
  - exists book'. split; [exact Hb|]. right. by apply Hc.
Defined.



